(** * The ComfoConnect configuration wizard

    A shallow embedding of [custom_components/comfoconnect/config_flow.py]:
    the class [ComfoConnectConfigFlow] with its steps ([async_step_user],
    [async_step_manual], [async_step_enter_pin], [async_step_import],
    [async_step_reauth]), the PIN validation and the registration routine
    [_register].

    The wizard is glue over two collaborators that are not part of the
    repository: the device library (discovery, connect, register, session
    start, disconnect) and the host platform (forms, unique ids, entries).
    Every call into the device library is answered by a [Library], a record
    of functions of the history of calls made so far, and is written to a
    trace.  Python exceptions are a [Result]; the attributes of [self] are a
    record [Flow] threaded through every step. *)

From stdpp Require Import gmap strings list fin_maps.
From Stdlib Require Import ZArith Ascii.

Local Open Scope string_scope.
Local Open Scope Z_scope.
Local Open Scope list_scope.

(** ** Values and constants *)

(** The values found in the dictionaries handed to the steps
    ([ConfigType], [dict[str, Any]]). *)
Inductive Value : Type :=
| VNone
| VStr (s : string)
| VInt (z : Z).

#[global] Instance Value_eq_dec : EqDecision Value.
Proof. solve_decision. Defined.

Definition is_none (v : Value) : bool :=
  match v with VNone => true | _ => false end.

(** [dict[str, Any]] and [dict[str, str]]. *)
Abbreviation ConfigType := (gmap string Value).
Abbreviation Errors := (gmap string string).

(** [homeassistant.const] *)
Definition CONF_HOST : string := "host".
Definition CONF_PIN : string := "pin".
Definition SOURCE_REAUTH : string := "reauth".

(** Modelled from the spec: [CONF_UUID] of [const.py], which is not among
    the sources; the spec names the fields of the persisted entry host, uuid
    and local-uuid. *)
Definition CONF_UUID : string := "uuid".

(** Modelled from the spec: [CONF_LOCAL_UUID] of [const.py], which is not
    among the sources; the local-uuid field of the persisted entry. *)
Definition CONF_LOCAL_UUID : string := "local_uuid".

Definition DEFAULT_PIN : string := "0000".
Definition COMFOCONNECT_MANUAL_BRIDGE_ID : string := "manual".

(** [aiocomfoconnect.Bridge], as far as the wizard reads it. *)
Record Bridge : Type := mkBridge { host : string; uuid : string }.

#[global] Instance Bridge_eq_dec : EqDecision Bridge.
Proof. solve_decision. Defined.

(** ** Exceptions and results *)

Inductive Exc : Type :=
| AioComfoConnectTimeout
| ComfoConnectNotAllowed
| AbortFlow (reason : string)
| PyError (name : string).

#[global] Instance Exc_eq_dec : EqDecision Exc.
Proof. solve_decision. Defined.

Inductive Result (A : Type) : Type :=
| Return (a : A)
| Raise (e : Exc).
Arguments Return {A} a.
Arguments Raise {A} e.

Definition raised {A} (r : Result A) : option Exc :=
  match r with Return _ => None | Raise e => Some e end.

(** ** The collaborators *)

(** The calls the wizard makes outside of itself. *)
Inductive Call : Type :=
| Discover (h : Value)
| Connect (b : Bridge) (local_uuid : Value)
| RegisterApp (b : Bridge) (local_uuid : Value) (device_name : string) (pin : Value)
| StartSession (b : Bridge) (take_over : bool)
| Disconnect (b : Bridge)
| RandomUuidHex
| AsyncReload (entry_id : string).

#[global] Instance Call_eq_dec : EqDecision Call.
Proof. solve_decision. Defined.

(** A call together with the exception it ended in, if any. *)
Record Event : Type := mkEvent { ev_call : Call; ev_raised : option Exc }.

#[global] Instance Event_eq_dec : EqDecision Event.
Proof. solve_decision. Defined.

Abbreviation Trace := (list Event).

(** What lies outside the repository: the device library and
    [random_uuid_hex], each call answering after the calls made so far, and
    Python's [int]. *)
Record Library : Type := mkLibrary {
  lib_discover_bridges : Trace -> Value -> Result (list Bridge);
  lib_connect : Trace -> Bridge -> Value -> Result unit;
  lib_cmd_register_app : Trace -> Bridge -> Value -> string -> Value -> Result unit;
  lib_cmd_start_session : Trace -> Bridge -> bool -> Result unit;
  lib_disconnect : Trace -> Bridge -> Result unit;
  lib_random_uuid_hex : Trace -> string;
  (** Python's [int] on a string; [None] for a [ValueError] *)
  py_int : string -> option Z
}.

(** What the host platform knows when a step runs: [hass.config],
    [self.context] and the unique ids of the entries of this integration
    that exist ([current_ids]; the platform's ignored entries are not told
    apart). *)
Record Env : Type := mkEnv {
  location_name : string;
  context_source : option string;
  context_entry_id : option string;
  current_ids : gset string
}.

(** The attributes of [self], with [self.context["unique_id"]]. *)
Record Flow : Type := mkFlow {
  bridge : option Bridge;
  local_uuid : Value;
  discovered_bridges : option (gmap string Bridge);
  unique_id : option string
}.

(** [ComfoConnectConfigFlow.__init__] *)
Definition init : Flow :=
  {| bridge := None; local_uuid := VNone; discovered_bridges := None;
     unique_id := None |}.

(** ** What a step hands back to the platform *)

Inductive Schema : Type :=
| UserSchema (default : Value) (choices : gmap string string)
| ManualSchema (host_default : Value)
| PinSchema.

Inductive FlowResult : Type :=
| Form (step_id : string) (errors : Errors) (data_schema : Schema)
| CreateEntry (title : string) (data : ConfigType)
| AbortResult (reason : string).

#[global] Instance Schema_eq_dec : EqDecision Schema.
Proof. solve_decision. Defined.

#[global] Instance FlowResult_eq_dec : EqDecision FlowResult.
Proof. solve_decision. Defined.

(** ** The monad of a step: [self], the trace, exceptions *)

Definition M (A : Type) : Type := Flow -> Trace -> Result A * Flow * Trace.

#[global] Instance M_ret : MRet M :=
  fun A (a : A) self tr => (Return a, self, tr).

#[global] Instance M_bind : MBind M :=
  fun A B (k : A -> M B) (m : M A) self tr =>
    match m self tr with
    | (Return a, self', tr') => k a self' tr'
    | (Raise e, self', tr') => (Raise e, self', tr')
    end.

Definition ret {A} (a : A) : M A := mret a.

Definition raise {A} (e : Exc) : M A := fun self tr => (Raise e, self, tr).

(** [try: m except e: handler] *)
Definition try_except {A} (m : M A) (e : Exc) (handler : M A) : M A :=
  fun self tr =>
    match m self tr with
    | (Raise e', self', tr') =>
        if decide (e' = e) then handler self' tr' else (Raise e', self', tr')
    | r => r
    end.

(** [try: m finally: cleanup].  An exception of the cleanup replaces the
    outcome of [m]. *)
Definition try_finally {A} (m : M A) (cleanup : M unit) : M A :=
  fun self tr =>
    match m self tr with
    | (r, self', tr') =>
        match cleanup self' tr' with
        | (Return _, self'', tr'') => (r, self'', tr'')
        | (Raise e, self'', tr'') => (Raise e, self'', tr'')
        end
    end.

Definition get_self : M Flow := fun self tr => (Return self, self, tr).

Definition set_bridge (b : Bridge) : M unit :=
  fun self tr =>
    (Return tt,
     {| bridge := Some b; local_uuid := local_uuid self;
        discovered_bridges := discovered_bridges self;
        unique_id := unique_id self |}, tr).

Definition set_local_uuid (u : Value) : M unit :=
  fun self tr =>
    (Return tt,
     {| bridge := bridge self; local_uuid := u;
        discovered_bridges := discovered_bridges self;
        unique_id := unique_id self |}, tr).

Definition set_discovered_bridges (d : gmap string Bridge) : M unit :=
  fun self tr =>
    (Return tt,
     {| bridge := bridge self; local_uuid := local_uuid self;
        discovered_bridges := Some d;
        unique_id := unique_id self |}, tr).

Definition set_unique_id (u : string) : M unit :=
  fun self tr =>
    (Return tt,
     {| bridge := bridge self; local_uuid := local_uuid self;
        discovered_bridges := discovered_bridges self;
        unique_id := Some u |}, tr).

(** A call into a collaborator: answered from the history, then logged. *)
Definition invoke {A} (c : Call) (answer : Trace -> Result A) : M A :=
  fun self tr =>
    let r := answer tr in
    (r, self, tr ++ [mkEvent c (raised r)]).

(** [d[k]] *)
Definition subscript (d : ConfigType) (k : string) : M Value :=
  match d !! k with
  | Some v => ret v
  | None => raise (PyError "KeyError")
  end.

(** [d.get(k, default)] *)
Definition dict_get (d : ConfigType) (k : string) (dflt : Value) : Value :=
  default dflt (d !! k).

(** [if d:] on a dictionary: it holds an item *)
Definition truthy {V} (d : gmap string V) : bool :=
  negb (Nat.eqb (size d) 0).

(** ** PIN validation *)

Section Validation.
Variable lib : Library.

(** [vol.Coerce(int)]: [int(v)], where a [ValueError] or [TypeError] of
    [int] makes the value invalid ([None] here). *)
Definition Coerce_int (v : Value) : option Z :=
  match v with
  | VInt z => Some z
  | VStr s => py_int lib s
  | VNone => None
  end.

(** [vol.Range(min, max)] *)
Definition Range (min max : Z) (z : Z) : option Z :=
  if z <? min then None
  else if max <? z then None
  else Some z.

(** [PIN_VALIDATOR = vol.All(vol.Coerce(int), vol.Range(min=0, max=9999))];
    [None] stands for [vol.Invalid]. *)
Definition PIN_VALIDATOR (v : Value) : option Z :=
  z ← Coerce_int v; Range 0 9999 z.

(** [_parse_optional_pin]: the PIN and the [errors] dictionary as the call
    leaves it. *)
Definition _parse_optional_pin (user_input : ConfigType) (errors : Errors)
  : Value * Errors :=
  let pin_input := dict_get user_input CONF_PIN (VStr "") in
  if decide (pin_input = VStr "") then (VNone, errors)
  else
    match PIN_VALIDATOR pin_input with
    | None => (VNone, <[CONF_PIN := "invalid_pin"]> errors)
    | Some pin => (VInt pin, errors)
    end.
End Validation.

(** ** The wizard *)

Section Wizard.
Variable lib : Library.
Variable env : Env.

(** *** Calls into the device library *)

(** [aiocomfoconnect.discover_bridges(host)]; [VNone] when called without
    a host. *)
Definition discover_bridges (h : Value) : M (list Bridge) :=
  invoke (Discover h) (fun tr => lib_discover_bridges lib tr h).

Definition random_uuid_hex : M string :=
  invoke RandomUuidHex (fun tr => Return (lib_random_uuid_hex lib tr)).

(** [self.bridge], for a method call or an attribute read on it. *)
Definition self_bridge : M Bridge :=
  self ← get_self;
  match bridge self with
  | Some b => ret b
  | None => raise (PyError "AttributeError")
  end.

Definition self_local_uuid : M Value :=
  self ← get_self; ret (local_uuid self).

(** [f"Home Assistant ({self.hass.config.location_name})"] *)
Definition device_name : string :=
  "Home Assistant (" +:+ location_name env +:+ ")".

(** [self.bridge.connect(self.local_uuid)] *)
Definition bridge_connect : M unit :=
  b ← self_bridge; u ← self_local_uuid;
  invoke (Connect b u) (fun tr => lib_connect lib tr b u).

(** [self.bridge.cmd_register_app(self.local_uuid, f"Home Assistant (..)", pin)] *)
Definition cmd_register_app (pin : Value) : M unit :=
  b ← self_bridge; u ← self_local_uuid;
  invoke (RegisterApp b u device_name pin)
         (fun tr => lib_cmd_register_app lib tr b u device_name pin).

(** [self.bridge.cmd_start_session(take_over)] *)
Definition cmd_start_session (take_over : bool) : M unit :=
  b ← self_bridge;
  invoke (StartSession b take_over)
         (fun tr => lib_cmd_start_session lib tr b take_over).

(** [self.bridge.disconnect()] *)
Definition bridge_disconnect : M unit :=
  b ← self_bridge;
  invoke (Disconnect b) (fun tr => lib_disconnect lib tr b).

(** *** The host platform *)

(** [self.async_set_unique_id(uid, raise_on_progress=False)]: the unique id
    of the flow is set; with [raise_on_progress=False] a flow in progress for
    the same id does not stop this one. *)
Definition async_set_unique_id (uid : string) : M unit := set_unique_id uid.

(** [self._abort_if_unique_id_configured()]: [AbortFlow] when an entry has
    the unique id of the flow. *)
Definition _abort_if_unique_id_configured : M unit :=
  self ← get_self;
  match unique_id self with
  | None => ret tt
  | Some uid =>
      if decide (uid ∈ current_ids env)
      then raise (AbortFlow "already_configured")
      else ret tt
  end.

(** [self.hass.async_create_task(self.hass.config_entries.async_reload(id))] *)
Definition async_reload (entry_id : string) : M unit :=
  invoke (AsyncReload entry_id) (fun _ => Return tt).

(** *** Forms *)

(** [{bridge.uuid: bridge.host for bridge in d.values()}].  The wizard
    keys [discovered_bridges] by the identifier of each bridge, so no two
    values of [d] share one. *)
Definition bridge_choices (d : gmap string Bridge) : gmap string string :=
  list_to_map ((fun kb : string * Bridge => (uuid kb.2, host kb.2)) <$> map_to_list d).

Definition _show_user_form (errors : Errors) (selected_uuid : Value)
  : M FlowResult :=
  self ← get_self;
  ret (Form "user" errors
         (UserSchema selected_uuid
            (<[COMFOCONNECT_MANUAL_BRIDGE_ID :=
                 "Manually add a ComfoConnect LAN C Bridge"]>
               (bridge_choices (default ∅ (discovered_bridges self)))))).

Definition _show_manual_form (errors : Errors) (h : Value) : M FlowResult :=
  ret (Form "manual" errors (ManualSchema h)).

(** *** The PIN step and the registration routine

    [_register] and [async_step_enter_pin] call each other in the source.
    [_register] only ever calls the PIN step with the empty dictionary,
    for which the PIN step shows its form and does not call back; so the
    PIN step is written over the routine it calls, [_register] hands it a
    routine that is never run, and [async_step_enter_pin] is the PIN step
    over [_register] (see [_register_unfold] and
    [async_step_enter_pin_empty]). *)

Definition async_step_enter_pin_over (register : Value -> M FlowResult)
    (user_input : option ConfigType) (errors : option Errors)
  : M FlowResult :=
  let show (errors : option Errors) : M FlowResult :=
    ret (Form "enter_pin" (default ∅ errors) PinSchema) in
  match user_input with
  | Some ui =>
      if truthy ui && bool_decide (is_Some (ui !! CONF_PIN)) then
        try_except (pin ← subscript ui CONF_PIN; register pin)
          AioComfoConnectTimeout
          (show (Some {["base" := "cannot_connect"]}))
      else show errors
  | None => show errors
  end.

(** The body of [_register], over the PIN step it branches to.  The [try]
    block yields [Some r] where the source returns [r] from inside it and
    [None] where it runs to its end. *)
Definition _register_over
    (enter_pin : option ConfigType -> option Errors -> M FlowResult)
    (pin : Value) : M FlowResult :=
  u ← self_local_uuid;
  (if is_none u
   then fresh ← random_uuid_hex; set_local_uuid (VStr fresh)
   else ret tt);;
  bridge_connect;;
  returned ← try_finally
    ((if negb (is_none pin)
      then try_except (cmd_register_app pin) ComfoConnectNotAllowed (ret tt)
      else ret tt);;
     try_except (cmd_start_session true;; ret None)
       ComfoConnectNotAllowed
       (if negb (is_none pin)
        then r ← enter_pin (Some ∅) (Some {["base" := "invalid_pin"]});
             ret (Some r)
        else
          returned ← try_except
            (cmd_register_app (VStr DEFAULT_PIN);; ret None)
            ComfoConnectNotAllowed
            (r ← enter_pin (Some ∅) (Some ∅); ret (Some r));
          match returned with
          | Some r => ret (Some r)
          | None => cmd_start_session true;; ret None
          end))
    bridge_disconnect;
  match returned with
  | Some r => ret r
  | None =>
      if decide (context_source env = Some SOURCE_REAUTH) then
        match context_entry_id env with
        | Some entry_id =>
            async_reload entry_id;; ret (AbortResult "reauth_successful")
        | None => raise (PyError "KeyError")
        end
      else
        b ← self_bridge; u ← self_local_uuid;
        ret (CreateEntry (host b)
               (<[CONF_LOCAL_UUID := u]>
                  (<[CONF_UUID := VStr (uuid b)]>
                     (<[CONF_HOST := VStr (host b)]> ∅))))
  end.

Definition _register (pin : Value) : M FlowResult :=
  _register_over
    (async_step_enter_pin_over (fun _ => raise (PyError "RecursionError")))
    pin.

Definition async_step_enter_pin
    (user_input : option ConfigType) (errors : option Errors)
  : M FlowResult :=
  async_step_enter_pin_over _register user_input errors.

(** *** The steps that start a registration *)

(** [async_step_manual] *)
Definition async_step_manual (user_input : option ConfigType)
  : M FlowResult :=
  let show (errors : Errors) : M FlowResult :=
    _show_manual_form errors
      (match user_input with
       | Some ui => if truthy ui then dict_get ui CONF_HOST VNone else VNone
       | None => VNone
       end) in
  match user_input with
  | Some ui =>
      h ← subscript ui CONF_HOST;
      if negb (is_none h) then
        (* We need to discover the bridge to get its UUID *)
        bridges ← discover_bridges h;
        match bridges with
        | [] => show {["base" := "invalid_host"]}
        | b0 :: _ =>
            set_bridge b0;;
            (* Don't allow to configure the same bridge twice *)
            b ← self_bridge;
            async_set_unique_id (uuid b);;
            _abort_if_unique_id_configured;;
            let '(pin, errors) := _parse_optional_pin lib ui ∅ in
            if truthy errors
            then _show_manual_form errors (dict_get ui CONF_HOST VNone)
            else
              try_except (_register pin) AioComfoConnectTimeout
                (show (<["base" := "cannot_connect"]> errors))
        end
      else show ∅
  | None => show ∅
  end.

(** [self.discovered_bridges[key]] *)
Definition discovered_bridge (key : Value) : M Bridge :=
  self ← get_self;
  match discovered_bridges self with
  | None => raise (PyError "TypeError")
  | Some d =>
      match key with
      | VStr k =>
          match d !! k with
          | Some b => ret b
          | None => raise (PyError "KeyError")
          end
      | _ => raise (PyError "KeyError")
      end
  end.

(** [{bridge.uuid: bridge for bridge in bridges if bridge.uuid not in ids}] *)
Definition unconfigured (ids : gset string) (bridges : list Bridge)
  : gmap string Bridge :=
  foldl (fun d b => <[uuid b := b]> d) ∅
        (filter (fun b => uuid b ∉ ids) bridges).

(** [async_step_user] *)
Definition async_step_user (user_input : option ConfigType)
  : M FlowResult :=
  let discover (errors : Errors) : M FlowResult :=
    (* Find bridges on the network and filter out the ones we already have
       configured *)
    bridges ← discover_bridges VNone;
    set_discovered_bridges (unconfigured (current_ids env) bridges);;
    _show_user_form errors VNone in
  match user_input with
  | Some ui =>
      selected ← subscript ui CONF_UUID;
      (* User has chosen to manually enter a bridge *)
      if decide (selected = VStr COMFOCONNECT_MANUAL_BRIDGE_ID)
      then async_step_manual None
      else
        (* User has selected a discovered bridge *)
        if negb (is_none selected) then
          b ← discovered_bridge selected;
          set_bridge b;;
          (* Don't allow to configure the same bridge twice *)
          b ← self_bridge;
          async_set_unique_id (uuid b);;
          _abort_if_unique_id_configured;;
          try_except (_register VNone) AioComfoConnectTimeout
            (discover {["base" := "cannot_connect"]})
        else discover ∅
  | None => discover ∅
  end.

(** [async_step_import] *)
Definition async_step_import (import_config : option ConfigType)
  : M FlowResult :=
  match import_config with
  | None => raise (PyError "AttributeError")
  | Some cfg =>
      set_local_uuid (dict_get cfg "token" VNone);;
      h ← subscript cfg CONF_HOST;
      async_step_manual (Some {[CONF_HOST := h]})
  end.

(** [Bridge(host, uuid)] on the data of an entry.  The entry was written
    by [_register] and holds strings; a [Bridge] of this model cannot hold
    anything else, which is reported as a [TypeError]. *)
Definition Bridge_of (h u : Value) : M Bridge :=
  match h, u with
  | VStr h, VStr u => ret (mkBridge h u)
  | _, _ => raise (PyError "TypeError")
  end.

(** [async_step_reauth] *)
Definition async_step_reauth (user_input : option ConfigType)
  : M FlowResult :=
  match user_input with
  | None => raise (PyError "TypeError")
  | Some ui =>
      h ← subscript ui CONF_HOST;
      u ← subscript ui CONF_UUID;
      b ← Bridge_of h u;
      set_bridge b;;
      l ← subscript ui CONF_LOCAL_UUID;
      set_local_uuid l;;
      _register VNone
  end.
End Wizard.

(** ** Reading a trace *)

Definition is_connect (c : Call) : bool :=
  match c with Connect _ _ => true | _ => false end.

Definition is_register (c : Call) : bool :=
  match c with RegisterApp _ _ _ _ => true | _ => false end.

Definition is_start_session (c : Call) : bool :=
  match c with StartSession _ _ => true | _ => false end.

Definition is_disconnect (c : Call) : bool :=
  match c with Disconnect _ => true | _ => false end.

(** A call that takes part in the handshake with the bridge. *)
Definition bridge_call (c : Call) : bool :=
  is_connect c || is_register c || is_start_session c.

(** The call came back without an exception. *)
Definition returned (e : Event) : bool :=
  match ev_raised e with None => true | Some _ => false end.

(** The call was refused by the bridge. *)
Definition refused (e : Event) : bool :=
  match ev_raised e with
  | Some ComfoConnectNotAllowed => true
  | _ => false
  end.

(** The events of the calls picked by [p]. *)
Definition calls (p : Call -> bool) (tr : Trace) : Trace :=
  List.filter (fun e => p (ev_call e)) tr.

(** The trace holds a call picked by [p] with outcome [q]. *)
Definition happened (p : Call -> bool) (q : Event -> bool) (tr : Trace) : bool :=
  existsb q (calls p tr).

(** The outcome [q] holds of the last call picked by [p]. *)
Definition ended (p : Call -> bool) (q : Event -> bool) (tr : Trace) : bool :=
  match last (calls p tr) with
  | Some e => q e
  | None => false
  end.

(** What follows the first event that satisfies [q]. *)
Fixpoint after (q : Event -> bool) (tr : Trace) : Trace :=
  match tr with
  | [] => []
  | e :: rest => if q e then rest else after q rest
  end.

(** The local identifier a call hands to the bridge. *)
Definition identifier_of (c : Call) : option Value :=
  match c with
  | Connect _ u => Some u
  | RegisterApp _ u _ _ => Some u
  | _ => None
  end.

Definition is_random_uuid (c : Call) : bool :=
  match c with RandomUuidHex => true | _ => false end.

Definition is_reload (c : Call) : bool :=
  match c with AsyncReload _ => true | _ => false end.

(** The call ended in an exception other than a refusal. *)
Definition failed (e : Event) : bool :=
  match ev_raised e with
  | None => false
  | Some ComfoConnectNotAllowed => false
  | Some _ => true
  end.

(** The PIN a registration hands to the bridge. *)
Definition pin_of (c : Call) : option Value :=
  match c with
  | RegisterApp _ _ _ pin => Some pin
  | _ => None
  end.

(** The bridge a call of the handshake goes to. *)
Definition bridge_of (c : Call) : option Bridge :=
  match c with
  | Connect b _ => Some b
  | RegisterApp b _ _ _ => Some b
  | StartSession b _ => Some b
  | Disconnect b => Some b
  | _ => None
  end.

(** ** Scripted collaborators, for running the wizard on examples *)

Module Scenario.
(** [int] on plain decimal text: an optional sign, then digits. *)
Fixpoint digits (s : string) (acc : Z) : option Z :=
  match s with
  | EmptyString => Some acc
  | String c rest =>
      let n := Z.of_N (Ascii.N_of_ascii c) in
      if (48 <=? n) && (n <=? 57) then digits rest (10 * acc + (n - 48))
      else None
  end.

Definition int (s : string) : option Z :=
  match s with
  | EmptyString => None
  | String "-"%char (String c rest) => Z.opp <$> digits (String c rest) 0
  | String "+"%char (String c rest) => digits (String c rest) 0
  | _ => digits s 0
  end.

(** How many session starts the trace holds. *)
Definition session_starts (tr : Trace) : nat :=
  length (calls is_start_session tr).

(** A library that finds [found] on the network, answers [connect],
    [register] (by PIN), [start] (by the number of earlier session starts)
    and [disconnect] as given, and generates the identifier [fresh]. *)
Definition scripted (found : list Bridge) (connect : Result unit)
    (register : Value -> Result unit) (start : nat -> Result unit)
    (disconnect : Result unit) (fresh : string) : Library :=
  {| lib_discover_bridges := fun _ _ => Return found;
     lib_connect := fun _ _ _ => connect;
     lib_cmd_register_app := fun _ _ _ _ pin => register pin;
     lib_cmd_start_session := fun tr _ _ => start (session_starts tr);
     lib_disconnect := fun _ _ => disconnect;
     lib_random_uuid_hex := fun _ => fresh;
     py_int := int |}.

Definition ok : Result unit := Return tt.

Definition lanc : Bridge := mkBridge "192.168.1.20" "00000000000000000000000000000055".

Definition home (source : option string) (ids : gset string) : Env :=
  {| location_name := "Home"; context_source := source;
     context_entry_id := Some "entry1"; current_ids := ids |}.

Definition user_env : Env := home (Some "user") ∅.

(** A bridge that accepts everything. *)
Definition open_bridge : Library :=
  scripted [lanc] ok (fun _ => ok) (fun _ => ok) ok "a1b2".

(** A bridge that refuses every session start and accepts registrations. *)
Definition stubborn : Library :=
  scripted [lanc] ok (fun _ => ok) (fun _ => Raise ComfoConnectNotAllowed)
           ok "a1b2".

(** A bridge with a PIN of its own: it refuses the session start and every
    registration. *)
Definition locked : Library :=
  scripted [lanc] ok (fun _ => Raise ComfoConnectNotAllowed)
           (fun _ => Raise ComfoConnectNotAllowed) ok "a1b2".

(** A bridge that takes the default PIN: the first session start is
    refused, the one after the registration is not. *)
Definition unregistered : Library :=
  scripted [lanc] ok (fun _ => ok)
           (fun n => match n with
                     | O => Raise ComfoConnectNotAllowed
                     | _ => ok
                     end) ok "a1b2".

(** A bridge that does not answer. *)
Definition silent : Library :=
  scripted [lanc] (Raise AioComfoConnectTimeout) (fun _ => ok)
           (fun _ => ok) ok "a1b2".

(** The flow after the user form listed [lanc]. *)
Definition offered : Flow :=
  {| bridge := None; local_uuid := VNone;
     discovered_bridges := Some {[uuid lanc := lanc]};
     unique_id := None |}.

(** The flow after the user picked [lanc]. *)
Definition picked : Flow :=
  {| bridge := Some lanc; local_uuid := VNone;
     discovered_bridges := Some {[uuid lanc := lanc]};
     unique_id := Some (uuid lanc) |}.

(** The same, once a local identifier was generated. *)
Definition registering : Flow :=
  {| bridge := Some lanc; local_uuid := VStr "a1b2";
     discovered_bridges := Some {[uuid lanc := lanc]};
     unique_id := Some (uuid lanc) |}.

Definition event (c : Call) : Event := mkEvent c None.

Definition refusal (c : Call) : Event :=
  mkEvent c (Some ComfoConnectNotAllowed).

Definition me : Value := VStr "a1b2".

Definition app : string := "Home Assistant (Home)".

(** What the user submits when picking [lanc]. *)
Definition pick_lanc : ConfigType := {[CONF_UUID := VStr (uuid lanc)]}.

(** The entry of [lanc]. *)
Definition lanc_data : ConfigType :=
  <[CONF_LOCAL_UUID := me]>
    (<[CONF_UUID := VStr (uuid lanc)]>
       (<[CONF_HOST := VStr (host lanc)]> ∅)).

Definition lanc_entry : FlowResult := CreateEntry "192.168.1.20" lanc_data.

(** The handshake of a bridge that accepts the PIN it is given. *)
Definition paired (pin : Value) : Trace :=
  [event RandomUuidHex; event (Connect lanc me);
   event (RegisterApp lanc me app pin);
   event (StartSession lanc true); event (Disconnect lanc)].

(** The handshake of [stubborn] with a PIN. *)
Definition turned_away (pin : Value) : Trace :=
  [event RandomUuidHex; event (Connect lanc me);
   event (RegisterApp lanc me app pin);
   refusal (StartSession lanc true); event (Disconnect lanc)].

(** The handshake of [unregistered] without a PIN. *)
Definition paired_by_default : Trace :=
  [event RandomUuidHex; event (Connect lanc me);
   refusal (StartSession lanc true);
   event (RegisterApp lanc me app (VStr "0000"));
   event (StartSession lanc true); event (Disconnect lanc)].


(** The handshake of [locked] without a PIN. *)
Definition default_refused : Trace :=
  [event RandomUuidHex; event (Connect lanc me);
   refusal (StartSession lanc true);
   refusal (RegisterApp lanc me app (VStr "0000"));
   event (Disconnect lanc)].

(** The platform when [lanc] has an entry already. *)
Definition lanc_known : Env := home (Some "user") {[uuid lanc]}.

(** What the manual form submits with a PIN out of range. *)
Definition long_pin : ConfigType :=
  {[CONF_HOST := VStr "192.168.1.20"; CONF_PIN := VStr "12345"]}.
(** A network without a bridge. *)
Definition deserted : Library :=
  scripted [] ok (fun _ => ok) (fun _ => ok) ok "a1b2".

(** The platform during the reauthentication of the entry of [lanc]. *)
Definition reauthenticating : Env := home (Some "reauth") {[uuid lanc]}.

(** The handshake of a reauthentication at [open_bridge]. *)
Definition reauthenticated : Trace :=
  [event (Connect lanc me); event (StartSession lanc true);
   event (Disconnect lanc); event (AsyncReload "entry1")].

(** The handshake of [silent]. *)
Definition unanswered : Trace :=
  [mkEvent (Connect lanc me) (Some AioComfoConnectTimeout)].

(** The handshake of [locked] with a PIN. *)
Definition turned_away_for_good (pin : Value) : Trace :=
  [event RandomUuidHex; event (Connect lanc me);
   refusal (RegisterApp lanc me app pin);
   refusal (StartSession lanc true); event (Disconnect lanc)].

(** What the manual form submits with the PIN 0042. *)
Definition short_pin : ConfigType :=
  {[CONF_HOST := VStr "192.168.1.20"; CONF_PIN := VStr "0042"]}.

(** The flow after the manual step paired with [lanc]. *)
Definition manually_paired : Flow :=
  {| bridge := Some lanc; local_uuid := me; discovered_bridges := None;
     unique_id := Some (uuid lanc) |}.

(** An imported configuration, and the handshake of its import. *)
Definition yaml : ConfigType :=
  {[CONF_HOST := VStr "192.168.1.20"; "token" := VStr "a1b2"]}.

Definition imported : Trace :=
  [event (Discover (VStr "192.168.1.20")); event (Connect lanc me);
   event (StartSession lanc true); event (Disconnect lanc)].
(** A bridge that accepts everything and whose connection breaks as it is
    closed. *)
Definition hung_up : Library :=
  scripted [lanc] ok (fun _ => ok) (fun _ => ok)
           (Raise (PyError "ConnectionResetError")) "a1b2".

(** A bridge that refuses every session start and whose connection breaks
    as it is closed. *)
Definition hung_up_refusing : Library :=
  scripted [lanc] ok (fun _ => ok) (fun _ => Raise ComfoConnectNotAllowed)
           (Raise (PyError "ConnectionResetError")) "a1b2".

(** The handshake of [hung_up] without a PIN. *)
Definition cut_off : Trace :=
  [event RandomUuidHex; event (Connect lanc me);
   event (StartSession lanc true);
   mkEvent (Disconnect lanc) (Some (PyError "ConnectionResetError"))].

(** The handshake of [hung_up_refusing] with a PIN. *)
Definition cut_off_refused (pin : Value) : Trace :=
  [event RandomUuidHex; event (Connect lanc me);
   event (RegisterApp lanc me app pin);
   refusal (StartSession lanc true);
   mkEvent (Disconnect lanc) (Some (PyError "ConnectionResetError"))].
End Scenario.

(** * Properties *)

(** ** Running the definitions *)

Lemma truthy_empty V : truthy (∅ : gmap string V) = false.
Proof. unfold truthy. by rewrite map_size_empty. Qed.

Lemma truthy_lookup {V} (d : gmap string V) k v :
  d !! k = Some v -> truthy d = true.
Proof.
  intros H. unfold truthy. destruct (size d) eqn:E; [|done].
  apply map_size_empty_inv in E. subst d. by rewrite lookup_empty in H.
Qed.

(** Called with the empty dictionary, the PIN step shows its form whatever
    routine it is built over. *)
Lemma async_step_enter_pin_empty register errors :
  async_step_enter_pin_over register (Some ∅) errors
  = ret (Form "enter_pin" (default ∅ errors) PinSchema).
Proof. unfold async_step_enter_pin_over. by rewrite truthy_empty. Qed.

(** [_register] is its body over the PIN step of the source. *)
Lemma _register_unfold lib env pin :
  _register lib env pin
  = _register_over lib env (async_step_enter_pin lib env) pin.
Proof.
  unfold _register, _register_over, async_step_enter_pin.
  by rewrite !async_step_enter_pin_empty.
Qed.

Lemma app_inv_nil {A} (l m : list A) : l = l ++ m -> m = [].
Proof. intros H. apply (app_inv_head l). by rewrite app_nil_r. Qed.

Ltac unfold_wizard :=
  cbv [bridge_connect cmd_register_app
       cmd_start_session bridge_disconnect random_uuid_hex self_bridge
       self_local_uuid async_reload set_local_uuid set_bridge set_unique_id
       set_discovered_bridges get_self invoke try_except try_finally ret
       raise mbind mret M_bind M_ret subscript raised is_none negb
       bridge local_uuid discovered_bridges unique_id
       _abort_if_unique_id_configured async_set_unique_id _show_manual_form
       _show_user_form discover_bridges discovered_bridge].

(** One answer of the library, or one test of the routine, at a time. *)
Ltac answer :=
  match goal with
  | |- context [lib_connect ?l ?t ?b ?u] =>
      destruct (lib_connect l t b u) as [[]|?] eqn:?
  | |- context [lib_cmd_register_app ?l ?t ?b ?u ?n ?p] =>
      destruct (lib_cmd_register_app l t b u n p) as [[]|?] eqn:?
  | |- context [lib_cmd_start_session ?l ?t ?b ?u] =>
      destruct (lib_cmd_start_session l t b u) as [[]|?] eqn:?
  | |- context [lib_disconnect ?l ?t ?b] =>
      destruct (lib_disconnect l t b) as [[]|?] eqn:?
  | |- context [decide (?e = ComfoConnectNotAllowed)] =>
      destruct (decide (e = ComfoConnectNotAllowed)); [subst e|]
  | |- context [decide (context_source ?e = ?s)] =>
      destruct (decide (context_source e = s))
  | |- context [match context_entry_id ?e with _ => _ end] =>
      destruct (context_entry_id e)
  end.

Ltac answer_step :=
  match goal with
  | |- context [lib_discover_bridges ?l ?t ?h] =>
      destruct (lib_discover_bridges l t h) as [[|? ?]|?] eqn:?
  | |- context [decide (?u ∈ current_ids ?e)] =>
      destruct (decide (u ∈ current_ids e))
  | |- context [_register ?l ?e ?p ?s ?t] =>
      destruct (_register l e p s t) as [[[?|?] ?] ?] eqn:?
  | |- context [decide (?e = AioComfoConnectTimeout)] =>
      destruct (decide (e = AioComfoConnectTimeout)); [subst e|]
  end.

(** The equation of a run [H], split into its result, its [self] and the
    events it added. *)
Ltac ran H :=
  try discriminate H;
  injection H as ? ? H; rewrite <- ?app_assoc in H;
  first [ apply app_inv_head in H
        | apply app_inv_nil in H
        | symmetry in H; apply app_inv_nil in H ];
  simpl in H; subst.

(** Every path of [_register] through the answers of the library. *)
Ltac register_paths H :=
  revert H; unfold _register, _register_over;
  rewrite !async_step_enter_pin_empty;
  unfold_wizard; simpl;
  repeat (answer; simpl); intros H; ran H.

(** A refusal that the trace does not hold. *)
Ltac no_refusal H :=
  exfalso; revert H; unfold happened, refused; simpl;
  repeat match goal with
         | e : Exc |- _ => destruct e; try contradiction
         end;
  simpl; discriminate.

(** The trace grew by the events shown. *)
Ltac grown :=
  first [ exists []; split; [by rewrite app_nil_r|]
        | eexists; split; [rewrite <- ?app_assoc; reflexivity|] ].

Section Properties.
Variable lib : Library.
Variable env : Env.

(** [_register] leaves the bridge, the discovered bridges and the unique id
    of the flow alone, keeps a local identifier that was given, and only adds
    to the trace. *)
Lemma register_frame pin self tr r self' tr' :
  _register lib env pin self tr = (r, self', tr') ->
  bridge self' = bridge self ∧
  discovered_bridges self' = discovered_bridges self ∧
  unique_id self' = unique_id self ∧
  (local_uuid self ≠ VNone -> local_uuid self' = local_uuid self) ∧
  ∃ new, tr' = tr ++ new.
Proof.
  intros H.
  destruct self as [[b|] u d uid]; destruct u, pin;
    revert H; unfold _register, _register_over;
    rewrite !async_step_enter_pin_empty; unfold_wizard; simpl;
    repeat (answer; simpl); intros [= <- <- <-].
  all: split_and!; try done.
  all: first [ by exists []; rewrite app_nil_r
             | by eexists; rewrite <- ?app_assoc ].
Qed.

(** What [_register] can return. *)
Lemma register_results pin self tr res self' tr' :
  _register lib env pin self tr = (Return res, self', tr') ->
  (∃ errors, res = Form "enter_pin" errors PinSchema) ∨
  (∃ b, bridge self = Some b ∧
        res = CreateEntry (host b)
                (<[CONF_LOCAL_UUID := local_uuid self']>
                   (<[CONF_UUID := VStr (uuid b)]>
                      (<[CONF_HOST := VStr (host b)]> ∅)))) ∨
  res = AbortResult "reauth_successful".
Proof.
  intros H.
  destruct self as [[b|] u d uid]; destruct u, pin;
    revert H; unfold _register, _register_over;
    rewrite !async_step_enter_pin_empty; unfold_wizard; simpl;
    repeat (answer; simpl); intros H; try discriminate H;
    injection H as <- <- <-.
  all: eauto.
Qed.

(** With a bridge set, [_register] starts its handshake by connecting to
    it. *)
Lemma register_connects pin self tr r self' new b :
  bridge self = Some b ->
  _register lib env pin self tr = (r, self', tr ++ new) ->
  ∃ u o, head (calls bridge_call new) = Some (mkEvent (Connect b u) o).
Proof.
  intros Hb H. destruct self as [b0 u d uid]; simpl in Hb; subst b0.
  destruct u, pin; register_paths H.
  all: by eexists _, _.
Qed.

(** What is known of a run of [_register] met in a step. *)
Ltac from_register :=
  match goal with
  | H : _register _ _ _ _ _ = (Return _, _, _) |- _ =>
      let F := fresh in
      pose proof H as F; apply register_frame in F;
      simpl in F; destruct F as (? & ? & ? & _ & ? & ?);
      apply register_results in H; simpl in H;
      destruct H as [[? ?]|[(? & ? & ?)|?]]; simplify_eq
  | H : _register _ _ _ _ _ = (Raise _, _, _) |- _ =>
      apply register_frame in H; simpl in H;
      destruct H as (? & ? & ? & _ & ? & ?); simplify_eq
  end.

(** *** The dictionaries of the user step *)

Lemma unconfigured_lookup ids (l : list Bridge) k b :
  unconfigured ids l !! k = Some b -> uuid b = k ∧ (uuid b ∉ ids) ∧ b ∈ l.
Proof.
  unfold unconfigured.
  assert (G : ∀ (l : list Bridge) (acc : gmap string Bridge),
             foldl (fun d b => <[uuid b := b]> d) acc l !! k = Some b ->
             acc !! k = Some b ∨ (uuid b = k ∧ b ∈ l)).
  { clear l. induction l as [|x l IH]; intros acc; simpl; [by left|].
    intros H. destruct (IH _ H) as [Hx|[? ?]].
    - destruct (decide (uuid x = k)) as [<-|Hne].
      + rewrite lookup_insert_eq in Hx. injection Hx as ->.
        right. split; [done|]. by left.
      + rewrite lookup_insert_ne in Hx by done. by left.
    - right. split; [done|]. by right. }
  intros H. destruct (G _ _ H) as [Hx|[Hk Hin]];
    [by rewrite lookup_empty in Hx|].
  apply list_elem_of_filter in Hin as [? ?]. done.
Qed.

Lemma bridge_choices_dom (d : gmap string Bridge) k :
  k ∈ dom (bridge_choices d) -> ∃ k' b, d !! k' = Some b ∧ uuid b = k.
Proof.
  intros [v Hv]%elem_of_dom. unfold bridge_choices in Hv.
  apply elem_of_list_to_map_2 in Hv.
  apply list_elem_of_fmap in Hv as [[k' b] [[= -> ->] Hin]].
  apply elem_of_map_to_list in Hin. eauto.
Qed.

(** The choices of the user form, built from what a discovery found. *)
Lemma offered_unconfigured ids (found : list Bridge) k :
  k ∈ dom (<[COMFOCONNECT_MANUAL_BRIDGE_ID :=
               "Manually add a ComfoConnect LAN C Bridge"]>
             (bridge_choices (unconfigured ids found))) ->
  k ≠ COMFOCONNECT_MANUAL_BRIDGE_ID ->
  (k ∉ ids) ∧ ∃ b, b ∈ found ∧ uuid b = k.
Proof.
  rewrite dom_insert_L. intros [Hk|Hk]%elem_of_union Hne.
  - apply elem_of_singleton in Hk. contradiction.
  - apply bridge_choices_dom in Hk as (k' & b & Hb & <-).
    apply unconfigured_lookup in Hb as (_ & ? & ?). eauto.
Qed.

(** ** The registration routine *)

(** C8.  On every path of [_register] on which the connect call came back,
    whether the routine returns an entry, branches to the PIN step or lets an
    exception of a registration or of a session start through, the bridge
    that was connected is disconnected exactly once, and no call of the
    handshake follows the disconnect. *)
Theorem register_disconnects_once pin self tr r self' new :
  _register lib env pin self tr = (r, self', tr ++ new) ->
  happened is_connect returned new = true ->
  ∃ b u, calls is_connect new = [mkEvent (Connect b u) None] ∧
    ev_call <$> calls is_disconnect new = [Disconnect b] ∧
    calls bridge_call (after (fun e => is_disconnect (ev_call e)) new) = [].
Proof.
  intros H Hc.
  destruct self as [[b|] u d uid]; destruct u, pin; register_paths H.
  all: try discriminate Hc.
  all: by eexists _, _.
Qed.

(** C3 (amended).  When the last session start of a run of [_register]
    came back and the flow is not a reauthentication, the routine ends with
    the disconnect of the bridge it connected to.  When that disconnect
    comes back, what the routine returns is one entry, titled with the host
    of the bridge, whose data has exactly the fields host, uuid and
    local-uuid: the host and the identifier of the bridge, and the local
    identifier the routine connected with.  When the disconnect raises, its
    exception leaves the routine and no entry is returned. *)
Theorem register_creates_entry pin self tr r self' new :
  context_source env ≠ Some SOURCE_REAUTH ->
  _register lib env pin self tr = (r, self', tr ++ new) ->
  ended is_start_session returned new = true ->
  ∃ b u data outcome,
    bridge self' = Some b ∧ local_uuid self' = u ∧
    calls is_connect new = [mkEvent (Connect b u) None] ∧
    calls is_disconnect new = [mkEvent (Disconnect b) outcome] ∧
    r = match outcome with
        | None => Return (CreateEntry (host b) data)
        | Some e => Raise e
        end ∧
    dom data = {[CONF_HOST; CONF_UUID; CONF_LOCAL_UUID]} ∧
    data !! CONF_HOST = Some (VStr (host b)) ∧
    data !! CONF_UUID = Some (VStr (uuid b)) ∧
    data !! CONF_LOCAL_UUID = Some u.
Proof.
  intros Hsrc H Hs.
  destruct self as [[b|] u d uid]; destruct u, pin; register_paths H.
  all: try discriminate Hs; try contradiction.
  all: eexists _, _,
         (<[CONF_LOCAL_UUID := _]>
            (<[CONF_UUID := _]> (<[CONF_HOST := _]> ∅))), _;
    split_and!; try reflexivity.
  all: apply lookup_insert_eq.
Qed.

(** C2 (amended).  The entry [_register] writes consists of the host, the
    identifier of the bridge and the local identifier, and of nothing else:
    it holds no PIN, whether or not one was supplied. *)
Theorem register_entry_without_pin pin self tr title data self' tr' :
  _register lib env pin self tr
  = (Return (CreateEntry title data), self', tr') ->
  ∃ b, bridge self' = Some b ∧ title = host b ∧
    dom data = {[CONF_HOST; CONF_UUID; CONF_LOCAL_UUID]} ∧
    data !! CONF_HOST = Some (VStr (host b)) ∧
    data !! CONF_UUID = Some (VStr (uuid b)) ∧
    data !! CONF_LOCAL_UUID = Some (local_uuid self') ∧
    data !! CONF_PIN = None.
Proof.
  intros H.
  destruct self as [[b|] u d uid]; destruct u, pin;
    revert H; unfold _register, _register_over;
    rewrite !async_step_enter_pin_empty; unfold_wizard; simpl;
    repeat (answer; simpl); intros H; try discriminate H.
  all: injection H as <- <- <- <-.
  all: eexists; split_and!; try reflexivity.
  all: apply lookup_insert_eq.
Qed.

(** C5 (amended).  When [_register] runs with a PIN and a session start is
    refused, the routine ends with the disconnect of the bridge.  When that
    disconnect comes back, it returns the form of the PIN step with the error
    invalid_pin; when the disconnect raises, its exception leaves the
    routine instead. *)
Theorem refused_session_asks_for_pin pin self tr r self' new :
  pin ≠ VNone ->
  _register lib env pin self tr = (r, self', tr ++ new) ->
  happened is_start_session refused new = true ->
  ∃ b outcome,
    calls is_disconnect new = [mkEvent (Disconnect b) outcome] ∧
    r = match outcome with
        | None =>
            Return (Form "enter_pin" {["base" := "invalid_pin"]} PinSchema)
        | Some e => Raise e
        end.
Proof.
  intros Hpin H Hs.
  destruct self as [[b|] u d uid]; destruct u, pin; try contradiction;
    register_paths H.
  all: try discriminate Hs.
  all: try (by eexists _, _).
  all: no_refusal Hs.
Qed.

(** C10.  When [_register] runs without a PIN and a session start is
    refused, the next call registers with the PIN "0000".  If that
    registration comes back, the session start is made once more; if it is
    refused, no further call of the handshake is made and the form of the
    PIN step is returned without an error.  That form is returned only when
    the registration with the default PIN was refused. *)
Theorem unregistered_tries_default_pin self tr r self' new :
  _register lib env VNone self tr = (r, self', tr ++ new) ->
  happened is_start_session refused new = true ->
  ∃ b u outcome rest,
    after (fun e => is_start_session (ev_call e)) new
      = mkEvent (RegisterApp b u (device_name env) (VStr "0000")) outcome
          :: rest ∧
    match outcome with
    | None => ev_call <$> calls bridge_call rest = [StartSession b true]
    | Some e =>
        calls bridge_call rest = [] ∧
        (e = ComfoConnectNotAllowed ->
         happened is_disconnect returned new = true ->
         r = Return (Form "enter_pin" ∅ PinSchema))
    end ∧
    (∀ step errors schema, r = Return (Form step errors schema) ->
       outcome = Some ComfoConnectNotAllowed ∧ step = "enter_pin" ∧
       errors = ∅).
Proof.
  intros H Hs.
  destruct self as [[b|] u d uid]; destruct u; register_paths H.
  all: try discriminate Hs.
  all: try (no_refusal Hs).
  all: eexists _, _, _, _; (split; [reflexivity|]); simpl; split_and!;
    try reflexivity; try discriminate; try (intros; congruence).
  all: try (intros ? ? ? [= <- <- <-]; done).
  all: try (intros; discriminate).
Qed.

(** C6.  When [_register] starts and the flow has no local identifier, the
    first thing it does is to generate one with [random_uuid_hex]; that
    identifier is the one every connect and register call of the run
    carries, the one the flow keeps, and the local-uuid of the entry. *)
Theorem register_generates_local_uuid pin self tr r self' new :
  local_uuid self = VNone ->
  _register lib env pin self tr = (r, self', tr ++ new) ->
  let u := VStr (lib_random_uuid_hex lib tr) in
  head new = Some (mkEvent RandomUuidHex None) ∧
  local_uuid self' = u ∧
  Forall (fun e => ∀ x, identifier_of (ev_call e) = Some x -> x = u) new ∧
  (∀ title data, r = Return (CreateEntry title data) ->
     data !! CONF_LOCAL_UUID = Some u).
Proof.
  intros Hu H.
  destruct self as [[b|] u d uid]; simpl in Hu; subst u; destruct pin;
    register_paths H.
  all: split_and!; try reflexivity.
  all: try (repeat constructor; simpl; intros; congruence).
  all: try (intros; discriminate).
  all: intros ? ? [= <- <-]; apply lookup_insert_eq.
Qed.

(** ** The steps *)

(** One test of a step at a time. *)
Ltac pick :=
  match goal with
  | |- context [?ui !! CONF_UUID] =>
      destruct (ui !! CONF_UUID) as [[|?|?]|] eqn:?
  | |- context [?ui !! CONF_HOST] =>
      destruct (ui !! CONF_HOST) as [[|?|?]|] eqn:?
  | |- context [decide (VStr ?k = VStr ?m)] =>
      destruct (decide (VStr k = VStr m)) as [[= ->]|?]
  | |- context [match ?d !! ?k with _ => _ end] =>
      destruct (d !! k) eqn:?
  | |- context [truthy ?d] => destruct (truthy d) eqn:?
  | |- context [_parse_optional_pin ?l ?ui ?e] =>
      destruct (_parse_optional_pin l ui e) as [? ?] eqn:?
  end.

(** Every path of the user step and of the manual step, up to the run of
    [_register]. *)
Ltac step_paths :=
  unfold async_step_user, async_step_manual; unfold_wizard; simpl;
  repeat (first [pick | answer_step]; simpl).

(** C4.  The PIN of the manual step.  An empty text gives no PIN and no
    error.  Any other input is accepted, as the integer it is coerced to,
    exactly when that integer lies between 0 and 9999.  An input that cannot
    be coerced to an integer of that range is rejected with the error
    invalid_pin, and the manual step then makes no call of the handshake: it
    shows its form again with that error. *)
Theorem pin_validation ui :
  let pin_input := dict_get ui CONF_PIN (VStr "") in
  (pin_input = VStr "" ->
   ∀ errors, _parse_optional_pin lib ui errors = (VNone, errors)) ∧
  (pin_input ≠ VStr "" ->
   ∀ errors z, _parse_optional_pin lib ui errors = (VInt z, errors)
               <-> Coerce_int lib pin_input = Some z ∧ (0 <= z <= 9999)%Z) ∧
  (pin_input ≠ VStr "" ->
   (∀ z, Coerce_int lib pin_input = Some z -> ¬ (0 <= z <= 9999)%Z) ->
   (∀ errors, _parse_optional_pin lib ui errors
              = (VNone, <[CONF_PIN := "invalid_pin"]> errors)) ∧
   ∀ self tr r self' tr',
     async_step_manual lib env (Some ui) self tr = (r, self', tr') ->
     ∃ new, tr' = tr ++ new ∧ calls bridge_call new = [] ∧
       ∀ h b rest, ui !! CONF_HOST = Some h -> h ≠ VNone ->
         lib_discover_bridges lib tr h = Return (b :: rest) ->
         uuid b ∉ current_ids env ->
         r = Return (Form "manual" {[CONF_PIN := "invalid_pin"]}
                       (ManualSchema h))).
Proof.
  intros pin_input.
  assert (Hparse : ∀ errors, _parse_optional_pin lib ui errors =
     if decide (pin_input = VStr "") then (VNone, errors)
     else match Coerce_int lib pin_input with
          | Some z => if decide (0 <= z <= 9999)%Z then (VInt z, errors)
                      else (VNone, <[CONF_PIN := "invalid_pin"]> errors)
          | None => (VNone, <[CONF_PIN := "invalid_pin"]> errors)
          end).
  { intros errors. unfold _parse_optional_pin, PIN_VALIDATOR. fold pin_input.
    destruct (decide (pin_input = VStr "")); [done|].
    destruct (Coerce_int lib pin_input) as [z|]; [|done]. simpl. unfold Range.
    destruct (decide (0 <= z <= 9999)%Z) as [Hz|Hz].
    - destruct (Z.ltb_spec z 0); [lia|].
      destruct (Z.ltb_spec 9999 z); [lia|done].
    - destruct (Z.ltb_spec z 0); [done|].
      destruct (Z.ltb_spec 9999 z); [done|lia]. }
  split_and!.
  - intros E errors. rewrite Hparse. by destruct (decide _).
  - intros E errors z. rewrite Hparse. destruct (decide _); [done|].
    destruct (Coerce_int lib pin_input) as [z'|].
    + destruct (decide _); (split; [intros ? | intros [? ?]]);
        simplify_eq; done.
    + (split; [intros ? | intros [? ?]]); simplify_eq.
  - intros E Hbad.
    assert (Hrej : ∀ errors, _parse_optional_pin lib ui errors
              = (VNone, <[CONF_PIN := "invalid_pin"]> errors)).
    { intros errors. rewrite Hparse. destruct (decide _); [done|].
      destruct (Coerce_int lib pin_input) as [z'|] eqn:Ez; [|done].
      destruct (decide _); [|done]. by destruct (Hbad z'). }
    split; [exact Hrej|].
    intros self tr r self' tr'. unfold async_step_manual. rewrite Hrej.
    rewrite (truthy_lookup _ CONF_PIN "invalid_pin") by apply lookup_insert_eq.
    unfold_wizard.
    destruct (ui !! CONF_HOST) as [h|] eqn:Eh; simpl.
    2:{ intros [= <- <- <-]. exists []. by rewrite app_nil_r. }
    destruct h; simpl; repeat (answer_step; simpl).
    all: intros [= <- <- <-].
    all: grown; (split; [reflexivity|]).
    all: intros h' b' rest' [= <-] Hne Hd ?; try congruence.
    all: rewrite Hd in *; simplify_eq; try contradiction.
    all: unfold dict_get; rewrite Eh; reflexivity.
Qed.

(** C9.  The same bridge is not set up twice.  Every bridge the user form
    offers has an identifier that no entry has yet.  The user step and the
    manual step make the bridge they are given the target of the flow and its
    identifier the unique id of the flow, and when an entry has that
    identifier they abort before any call of the handshake (the user step
    without any call at all, the manual step after its discovery).  So an
    entry either step returns is for a bridge that had none. *)
Theorem bridge_not_configured_twice :
  (∀ ui self tr errors dflt choices self' tr',
     async_step_user lib env ui self tr
       = (Return (Form "user" errors (UserSchema dflt choices)), self', tr') ->
     ∀ k, k ∈ dom choices -> k ≠ COMFOCONNECT_MANUAL_BRIDGE_ID ->
          k ∉ current_ids env) ∧
  (∀ ui self tr k d b,
     ui !! CONF_UUID = Some (VStr k) -> k ≠ COMFOCONNECT_MANUAL_BRIDGE_ID ->
     discovered_bridges self = Some d -> d !! k = Some b ->
     ∃ r self' new,
       async_step_user lib env (Some ui) self tr = (r, self', tr ++ new) ∧
       bridge self' = Some b ∧ unique_id self' = Some (uuid b) ∧
       (uuid b ∈ current_ids env ->
        r = Raise (AbortFlow "already_configured") ∧ new = [])) ∧
  (∀ ui self tr h b rest,
     ui !! CONF_HOST = Some h -> h ≠ VNone ->
     lib_discover_bridges lib tr h = Return (b :: rest) ->
     ∃ r self' new,
       async_step_manual lib env (Some ui) self tr = (r, self', tr ++ new) ∧
       bridge self' = Some b ∧ unique_id self' = Some (uuid b) ∧
       (uuid b ∈ current_ids env ->
        r = Raise (AbortFlow "already_configured") ∧
        new = [mkEvent (Discover h) None])) ∧
  (∀ ui self tr title data self' tr',
     async_step_user lib env ui self tr
       = (Return (CreateEntry title data), self', tr') ∨
     async_step_manual lib env ui self tr
       = (Return (CreateEntry title data), self', tr') ->
     ∃ b, bridge self' = Some b ∧ unique_id self' = Some (uuid b) ∧
          data !! CONF_UUID = Some (VStr (uuid b)) ∧
          uuid b ∉ current_ids env).
Proof.
  split_and!.
  - intros ui self tr errors dflt choices self' tr'.
    destruct self as [b u [d|] uid], ui as [ui|]; step_paths.
    all: intros H; try discriminate H.
    all: try (injection H as <- <- <- <- <-; intros k Hk Hne;
              by eapply offered_unconfigured).
    all: injection H as -> -> ->; from_register.
  - intros ui self tr k d b Hk Hne Hd Hb.
    destruct self as [b0 u d0 uid]; simpl in Hd; subst d0.
    unfold async_step_user, subscript. rewrite Hk. unfold_wizard. simpl.
    destruct (decide (VStr k = VStr COMFOCONNECT_MANUAL_BRIDGE_ID))
      as [[= ->]|_]; [done|].
    simpl. rewrite Hb. repeat (answer_step; simpl).
    all: try from_register.
    all: try (eexists _, _, _;
              split; [rewrite <- ?app_assoc; reflexivity|]; simpl; done).
    all: eexists _, _, []; rewrite app_nil_r; done.
  - intros ui self tr h b rest Hh Hne Hd.
    destruct self as [b0 u d0 uid].
    unfold async_step_manual, subscript. rewrite Hh. unfold_wizard. simpl.
    destruct h; [done| |]; simpl; rewrite Hd; simpl.
    all: repeat (first [pick | answer_step]; simpl).
    all: try from_register.
    all: try (eexists _, _, _;
              split; [rewrite <- ?app_assoc; reflexivity|]; simpl; done).
  - intros ui self tr title data self' tr' [H|H]; revert H.
    all: match goal with |- _ -> ?C => set (Concl := C) end.
    all: destruct self as [b u [d|] uid], ui as [ui|]; step_paths.
    all: intros H; try discriminate H.
    all: simplify_eq; from_register; subst Concl.
    all: eexists; split_and!; try done.
Qed.

(** C7 (amended).  In the user step, a submission whose identifier is the
    sentinel "manual" leads to the form of the manual step.  A submission
    that selects a discovered bridge makes that bridge the target of the flow
    and its identifier the unique id; when an entry with that identifier
    exists the flow aborts there, and otherwise it goes on to the
    registration: it connects to that bridge and, unless the registration
    times out, the step ends as [_register] does. *)
Theorem user_step_selection ui self tr :
  (ui !! CONF_UUID = Some (VStr COMFOCONNECT_MANUAL_BRIDGE_ID) ->
   async_step_user lib env (Some ui) self tr
   = (Return (Form "manual" ∅ (ManualSchema VNone)), self, tr)) ∧
  (∀ k d b,
     ui !! CONF_UUID = Some (VStr k) -> k ≠ COMFOCONNECT_MANUAL_BRIDGE_ID ->
     discovered_bridges self = Some d -> d !! k = Some b ->
     let target := {| bridge := Some b; local_uuid := local_uuid self;
                      discovered_bridges := discovered_bridges self;
                      unique_id := Some (uuid b) |} in
     (uuid b ∈ current_ids env ->
      async_step_user lib env (Some ui) self tr
      = (Raise (AbortFlow "already_configured"), target, tr)) ∧
     (uuid b ∉ current_ids env ->
      ∃ r self' new,
        async_step_user lib env (Some ui) self tr = (r, self', tr ++ new) ∧
        (∃ u o, head (calls bridge_call new)
                = Some (mkEvent (Connect b u) o)) ∧
        ∀ r0 self0 tr0,
          _register lib env VNone target tr = (r0, self0, tr0) ->
          r0 ≠ Raise AioComfoConnectTimeout ->
          (r, self', tr ++ new) = (r0, self0, tr0))).
Proof.
  split.
  - intros Hk. unfold async_step_user, async_step_manual, subscript.
    rewrite Hk. unfold_wizard. simpl. done.
  - intros k d b Hk Hne Hd Hb target.
    destruct self as [b0 u d0 uid]; simpl in Hd; subst d0.
    unfold async_step_user, subscript. rewrite Hk. unfold_wizard. simpl.
    destruct (decide (VStr k = VStr COMFOCONNECT_MANUAL_BRIDGE_ID))
      as [[= ->]|_]; [done|].
    simpl. rewrite Hb. subst target. simpl.
    destruct (decide (uuid b ∈ current_ids env)) as [Hin|Hout]; simpl.
    { split; [done|]. intros ?. contradiction. }
    split; [intros ?; contradiction|]. intros _.
    match goal with
    | |- context [_register ?l ?e ?p ?s ?t] =>
        destruct (_register l e p s t) as [[r0 self0] tr0] eqn:Hreg
    end.
    pose proof Hreg as F.
    apply register_frame in F as (_ & _ & _ & _ & new & ->).
    pose proof Hreg as Hc. eapply register_connects in Hc; [|reflexivity].
    destruct r0 as [res|e]; [by eexists _, _, _|].
    destruct (decide (e = AioComfoConnectTimeout)) as [->|Hne'].
    2:{ by eexists _, _, _. }
    destruct (lib_discover_bridges lib (tr ++ new) VNone) eqn:Hdisc; simpl.
    all: eexists _, _, _; split; [rewrite <- app_assoc; reflexivity|].
    all: split; [|intros ? ? ? [= <- <- <-] ?; done].
    all: destruct Hc as (u' & o & Hc); exists u', o.
    all: unfold calls in *; rewrite List.filter_app; simpl;
      rewrite app_nil_r; done.
Qed.

End Properties.

Import Scenario.

(** * The wizard at work *)

(** ** Runs of the registration routine *)

Example open_bridge_pairs :
  _register open_bridge user_env (VInt 1234) picked []
  = (Return lanc_entry, registering, paired (VInt 1234)).
Proof. vm_compute. reflexivity. Qed.

Example locked_bridge_asks_for_pin :
  _register locked user_env VNone picked []
  = (Return (Form "enter_pin" ∅ PinSchema), registering, default_refused).
Proof. vm_compute. reflexivity. Qed.

Example reauthentication_reloads :
  _register open_bridge (home (Some "reauth") {[uuid lanc]}) VNone
    registering []
  = (Return (AbortResult "reauth_successful"), registering,
     [event (Connect lanc me); event (StartSession lanc true);
      event (Disconnect lanc); event (AsyncReload "entry1")]).
Proof. vm_compute. reflexivity. Qed.

Example manual_step_pairs_with_pin :
  async_step_manual open_bridge user_env
    (Some {[CONF_HOST := VStr "192.168.1.20"; CONF_PIN := VStr "0042"]})
    init []
  = (Return lanc_entry,
     {| bridge := Some lanc; local_uuid := me; discovered_bridges := None;
        unique_id := Some (uuid lanc) |},
     event (Discover (VStr "192.168.1.20")) :: paired (VInt 42)).
Proof. vm_compute. reflexivity. Qed.

Example import_keeps_its_token :
  async_step_import open_bridge (home (Some "import") ∅)
    (Some {[CONF_HOST := VStr "192.168.1.20"; "token" := VStr "a1b2"]})
    init []
  = (Return lanc_entry,
     {| bridge := Some lanc; local_uuid := me; discovered_bridges := None;
        unique_id := Some (uuid lanc) |},
     [event (Discover (VStr "192.168.1.20")); event (Connect lanc me);
      event (StartSession lanc true); event (Disconnect lanc)]).
Proof. vm_compute. reflexivity. Qed.

Example user_step_lists_new_bridges :
  async_step_user open_bridge lanc_known None init []
  = (Return (Form "user" ∅
               (UserSchema VNone
                  {[COMFOCONNECT_MANUAL_BRIDGE_ID :=
                      "Manually add a ComfoConnect LAN C Bridge"]})),
     {| bridge := None; local_uuid := VNone; discovered_bridges := Some ∅;
        unique_id := None |},
     [event (Discover VNone)]).
Proof. vm_compute. reflexivity. Qed.

Example pins_read :
  PIN_VALIDATOR open_bridge (VStr "0042") = Some 42%Z ∧
  PIN_VALIDATOR open_bridge (VStr "9999") = Some 9999%Z ∧
  PIN_VALIDATOR open_bridge (VStr "10000") = None ∧
  PIN_VALIDATOR open_bridge (VStr "-1") = None ∧
  PIN_VALIDATOR open_bridge (VStr "12a4") = None ∧
  PIN_VALIDATOR open_bridge (VInt 7) = Some 7%Z.
Proof. split_and!; vm_compute; reflexivity. Qed.

(** ** The claims at these runs *)

Lemma register_disconnects_once_witness :
  _register open_bridge user_env (VInt 1234) picked []
  = (Return lanc_entry, registering, [] ++ paired (VInt 1234)) ∧
  happened is_connect returned (paired (VInt 1234)) = true ∧
  ∃ b u,
    calls is_connect (paired (VInt 1234)) = [mkEvent (Connect b u) None] ∧
    ev_call <$> calls is_disconnect (paired (VInt 1234)) = [Disconnect b] ∧
    calls bridge_call
      (after (fun e => is_disconnect (ev_call e)) (paired (VInt 1234))) = [].
Proof.
  split; [vm_compute; reflexivity|]. split; [reflexivity|].
  apply (register_disconnects_once open_bridge user_env (VInt 1234) picked []
           (Return lanc_entry) registering (paired (VInt 1234))).
  - vm_compute. reflexivity.
  - reflexivity.
Defined.

Lemma register_creates_entry_witness :
  ∃ b u data outcome,
    bridge registering = Some b ∧ local_uuid registering = u ∧
    calls is_connect paired_by_default = [mkEvent (Connect b u) None] ∧
    calls is_disconnect paired_by_default
    = [mkEvent (Disconnect b) outcome] ∧
    Return lanc_entry
    = match outcome with
      | None => Return (CreateEntry (host b) data)
      | Some e => Raise e
      end ∧
    dom data = {[CONF_HOST; CONF_UUID; CONF_LOCAL_UUID]} ∧
    data !! CONF_HOST = Some (VStr (host b)) ∧
    data !! CONF_UUID = Some (VStr (uuid b)) ∧
    data !! CONF_LOCAL_UUID = Some u.
Proof.
  apply (register_creates_entry unregistered user_env VNone picked []
           (Return lanc_entry) registering paired_by_default).
  - vm_compute. discriminate.
  - vm_compute. reflexivity.
  - reflexivity.
Defined.

Lemma register_entry_without_pin_witness :
  ∃ b, bridge registering = Some b ∧ "192.168.1.20" = host b ∧
    dom lanc_data = {[CONF_HOST; CONF_UUID; CONF_LOCAL_UUID]} ∧
    lanc_data !! CONF_HOST = Some (VStr (host b)) ∧
    lanc_data !! CONF_UUID = Some (VStr (uuid b)) ∧
    lanc_data !! CONF_LOCAL_UUID = Some (local_uuid registering) ∧
    lanc_data !! CONF_PIN = None.
Proof.
  apply (register_entry_without_pin open_bridge user_env (VInt 1234) picked []
           "192.168.1.20" lanc_data registering (paired (VInt 1234))).
  vm_compute. reflexivity.
Defined.

Lemma refused_session_asks_for_pin_witness :
  ∃ b outcome,
    calls is_disconnect (turned_away (VInt 1234))
    = [mkEvent (Disconnect b) outcome] ∧
    (_register stubborn user_env (VInt 1234) picked []).1.1
    = match outcome with
      | None =>
          Return (Form "enter_pin" {["base" := "invalid_pin"]} PinSchema)
      | Some e => Raise e
      end.
Proof.
  apply (refused_session_asks_for_pin stubborn user_env (VInt 1234) picked []
           _ registering (turned_away (VInt 1234))).
  - discriminate.
  - vm_compute. reflexivity.
  - reflexivity.
Defined.

Lemma unregistered_tries_default_pin_witness :
  ∃ b u outcome rest,
    after (fun e => is_start_session (ev_call e)) default_refused
      = mkEvent (RegisterApp b u (device_name user_env) (VStr "0000")) outcome
          :: rest ∧
    match outcome with
    | None => ev_call <$> calls bridge_call rest = [StartSession b true]
    | Some e =>
        calls bridge_call rest = [] ∧
        (e = ComfoConnectNotAllowed ->
         happened is_disconnect returned default_refused = true ->
         (_register locked user_env VNone picked []).1.1
         = Return (Form "enter_pin" ∅ PinSchema))
    end ∧
    (∀ step errors schema,
       (_register locked user_env VNone picked []).1.1
       = Return (Form step errors schema) ->
       outcome = Some ComfoConnectNotAllowed ∧ step = "enter_pin" ∧
       errors = ∅).
Proof.
  apply (unregistered_tries_default_pin locked user_env picked []
           _ registering default_refused).
  - vm_compute. reflexivity.
  - reflexivity.
Defined.

Lemma register_generates_local_uuid_witness :
  head (paired (VInt 1234)) = Some (mkEvent RandomUuidHex None) ∧
  local_uuid registering = VStr "a1b2" ∧
  Forall (fun e => ∀ x, identifier_of (ev_call e) = Some x -> x = VStr "a1b2")
         (paired (VInt 1234)) ∧
  (∀ title data, Return lanc_entry = Return (CreateEntry title data) ->
     data !! CONF_LOCAL_UUID = Some (VStr "a1b2")).
Proof.
  apply (register_generates_local_uuid open_bridge user_env (VInt 1234)
           picked [] (Return lanc_entry) registering (paired (VInt 1234))).
  - reflexivity.
  - vm_compute. reflexivity.
Defined.

Lemma pin_validation_witness :
  (∀ errors, _parse_optional_pin open_bridge long_pin errors
             = (VNone, <[CONF_PIN := "invalid_pin"]> errors)) ∧
  ∀ self tr r self' tr',
    async_step_manual open_bridge user_env (Some long_pin) self tr
    = (r, self', tr') ->
    ∃ new, tr' = tr ++ new ∧ calls bridge_call new = [] ∧
      ∀ h b rest, long_pin !! CONF_HOST = Some h -> h ≠ VNone ->
        lib_discover_bridges open_bridge tr h = Return (b :: rest) ->
        uuid b ∉ current_ids user_env ->
        r = Return (Form "manual" {[CONF_PIN := "invalid_pin"]}
                      (ManualSchema h)).
Proof.
  apply (proj2 (proj2 (pin_validation open_bridge user_env long_pin))).
  - vm_compute. discriminate.
  - intros z. vm_compute. intros [= <-] [_ H]. apply H. reflexivity.
Defined.

Lemma bridge_not_configured_twice_witness :
  ∃ r self' new,
    async_step_user open_bridge lanc_known (Some pick_lanc) offered []
    = (r, self', [] ++ new) ∧
    bridge self' = Some lanc ∧ unique_id self' = Some (uuid lanc) ∧
    (uuid lanc ∈ current_ids lanc_known ->
     r = Raise (AbortFlow "already_configured") ∧ new = []).
Proof.
  apply (proj1 (proj2 (bridge_not_configured_twice open_bridge lanc_known))
           pick_lanc offered [] (uuid lanc) {[uuid lanc := lanc]} lanc).
  - reflexivity.
  - discriminate.
  - reflexivity.
  - reflexivity.
Defined.

Lemma user_step_selection_witness :
  async_step_user open_bridge user_env
    (Some {[CONF_UUID := VStr "manual"]}) offered []
  = (Return (Form "manual" ∅ (ManualSchema VNone)), offered, []).
Proof.
  apply (proj1 (user_step_selection open_bridge user_env
                  {[CONF_UUID := VStr "manual"]} offered [])).
  reflexivity.
Defined.


(** ** Where the code departs from a claim *)


(** C2.  A registration with the PIN 1234: the PIN goes to the bridge, the
    entry that is written has no PIN. *)
Lemma entry_pin_counterexample :
  _register open_bridge user_env (VInt 1234) picked []
  = (Return (CreateEntry "192.168.1.20" lanc_data), registering,
     paired (VInt 1234)) ∧
  event (RegisterApp lanc me app (VInt 1234)) ∈ paired (VInt 1234) ∧
  dom lanc_data = {[CONF_HOST; CONF_UUID; CONF_LOCAL_UUID]} ∧
  lanc_data !! CONF_PIN = None.
Proof.
  split; [vm_compute; reflexivity|]. split; [|by split].
  unfold paired. do 2 right. left.
Qed.

(** C3.  Connect and session start come back, no registration is needed,
    and the connection breaks as it is closed: the exception of the
    disconnect leaves [_register] and no entry is returned. *)
Lemma broken_disconnect_counterexample :
  context_source user_env ≠ Some SOURCE_REAUTH ∧
  ended is_start_session returned cut_off = true ∧
  happened is_connect returned cut_off = true ∧
  _register hung_up user_env VNone picked []
  = (Raise (PyError "ConnectionResetError"), registering, cut_off).
Proof.
  split; [discriminate|]. split_and!; vm_compute; reflexivity.
Qed.

(** C5.  A registration with the PIN 1234 whose session start is refused,
    and the connection breaks as it is closed: [_register] raises the
    exception of the disconnect and the form of the PIN step is not
    returned. *)
Lemma refused_then_broken_counterexample :
  happened is_start_session refused (cut_off_refused (VInt 1234)) = true ∧
  _register hung_up_refusing user_env (VInt 1234) picked []
  = (Raise (PyError "ConnectionResetError"), registering,
     cut_off_refused (VInt 1234)).
Proof. split_and!; vm_compute; reflexivity. Qed.

(** C7.  The user selects a discovered bridge for which an entry exists by
    now: the flow aborts and makes no call at all. *)
Lemma configured_selection_counterexample :
  discovered_bridges offered = Some {[uuid lanc := lanc]} ∧
  pick_lanc !! CONF_UUID = Some (VStr (uuid lanc)) ∧
  async_step_user open_bridge lanc_known (Some pick_lanc) offered []
  = (Raise (AbortFlow "already_configured"), picked, []).
Proof. split_and!; vm_compute; reflexivity. Qed.

(** * Further properties of the wizard *)

Section Further.
Variable lib : Library.
Variable env : Env.

(** ** The registration routine *)

(** The local identifier of a run of [_register]: the one the flow had, or
    the one generated first.  Every call carries it and the flow keeps it. *)
Lemma register_identifier pin self tr r self' new :
  _register lib env pin self tr = (r, self', tr ++ new) ->
  local_uuid self' ≠ VNone ∧
  (local_uuid self ≠ VNone ->
   local_uuid self' = local_uuid self ∧ calls is_random_uuid new = []) ∧
  Forall (fun e => ∀ x, identifier_of (ev_call e) = Some x ->
                        x = local_uuid self') new.
Proof.
  intros H.
  destruct self as [[b|] u d uid]; destruct u, pin; register_paths H.
  all: split_and!; try done.
  all: repeat constructor; simpl; intros; congruence.
Qed.

(** The PINs a run of [_register] hands to the bridge, the bridge its calls
    go to, the name it registers under and the take-over of its session
    starts. *)
Lemma register_calls pin self tr r self' new :
  _register lib env pin self tr = (r, self', tr ++ new) ->
  Forall (fun e =>
            (∀ p, pin_of (ev_call e) = Some p ->
                  p = if is_none pin then VStr DEFAULT_PIN else pin) ∧
            (∀ b, bridge_of (ev_call e) = Some b -> bridge self = Some b) ∧
            (∀ b u n p, ev_call e = RegisterApp b u n p ->
                        n = device_name env) ∧
            (∀ b t, ev_call e = StartSession b t -> t = true)) new.
Proof.
  intros H.
  destruct self as [[b|] u d uid]; destruct u, pin; register_paths H.
  all: repeat constructor; simpl; intros; congruence.
Qed.

(** X1.  A local identifier that the flow has when [_register] starts (from
    an import, a reauthentication or an earlier attempt) is the one the run
    uses: no identifier is generated, every connect and register call
    carries the given one, the flow keeps it and an entry that is written
    has it as its local-uuid. *)
Theorem register_keeps_given_identifier pin self tr r self' new :
  local_uuid self ≠ VNone ->
  _register lib env pin self tr = (r, self', tr ++ new) ->
  calls is_random_uuid new = [] ∧
  local_uuid self' = local_uuid self ∧
  Forall (fun e => ∀ x, identifier_of (ev_call e) = Some x ->
                        x = local_uuid self) new ∧
  (∀ title data, r = Return (CreateEntry title data) ->
     data !! CONF_LOCAL_UUID = Some (local_uuid self)).
Proof.
  intros Hu H.
  destruct self as [[b|] u d uid]; destruct u, pin; try contradiction;
    register_paths H.
  all: split_and!; try reflexivity.
  all: try (repeat constructor; simpl; intros; congruence).
  all: try (intros; discriminate).
  all: intros ? ? [= <- <-]; apply lookup_insert_eq.
Qed.

(** X2.  In a reauthentication [_register] writes no entry, whatever the
    run ends in.  When its last session start and its disconnect came back,
    it schedules the reload of the entry the context names, as the last thing
    it does, and aborts the flow with reauth_successful; when the context
    names no entry it raises a [KeyError] and schedules nothing.  A reload is
    scheduled only on the way to that abort, and outside of a
    reauthentication none ever is. *)
Theorem register_reauth_reloads pin self tr r self' new :
  _register lib env pin self tr = (r, self', tr ++ new) ->
  (context_source env ≠ Some SOURCE_REAUTH -> calls is_reload new = []) ∧
  (context_source env = Some SOURCE_REAUTH ->
   (∀ title data, r ≠ Return (CreateEntry title data)) ∧
   (calls is_reload new ≠ [] ->
    r = Return (AbortResult "reauth_successful")) ∧
   (ended is_start_session returned new = true ->
    happened is_disconnect returned new = true ->
    match context_entry_id env with
    | Some entry_id =>
        r = Return (AbortResult "reauth_successful") ∧
        last new = Some (mkEvent (AsyncReload entry_id) None) ∧
        calls is_reload new = [mkEvent (AsyncReload entry_id) None]
    | None => r = Raise (PyError "KeyError") ∧ calls is_reload new = []
    end)).
Proof.
  intros H.
  destruct self as [[b|] u d uid]; destruct u, pin; revert H;
    unfold _register, _register_over;
    rewrite !async_step_enter_pin_empty; unfold_wizard; simpl;
    repeat (answer; simpl);
    try (destruct (decide (context_source env = Some SOURCE_REAUTH)));
    try (destruct (context_entry_id env) eqn:?); simpl;
    intros H; ran H.
  all: split; intros Hsrc; try contradiction; try reflexivity.
  all: split_and!; try (intros; discriminate); try done.
Qed.

(** X3.  When the connect call of [_register] does not come back (it raises,
    or the flow has no bridge to call), the routine fails: it makes no
    registration, no session start and no disconnect, and nothing is
    returned. *)
Theorem register_connect_failure pin self tr r self' new :
  _register lib env pin self tr = (r, self', tr ++ new) ->
  happened is_connect returned new = false ->
  calls is_register new = [] ∧ calls is_start_session new = [] ∧
  calls is_disconnect new = [] ∧ calls is_reload new = [] ∧
  match bridge self with
  | Some b =>
      ∃ u e, calls is_connect new = [mkEvent (Connect b u) (Some e)] ∧
             r = Raise e
  | None => calls is_connect new = [] ∧ r = Raise (PyError "AttributeError")
  end.
Proof.
  intros H Hc.
  destruct self as [[b|] u d uid]; destruct u, pin; register_paths H.
  all: try discriminate Hc.
  all: split_and!; try done; by eexists _, _.
Qed.

(** X4.  A run of [_register] connects at most once, registers at most once,
    starts a session at most twice and disconnects at most once; a second
    session start is only made without a PIN, after the first was refused
    and the registration with the default PIN came back. *)
Theorem register_call_bounds pin self tr r self' new :
  _register lib env pin self tr = (r, self', tr ++ new) ->
  (length (calls is_connect new) <= 1)%nat ∧
  (length (calls is_register new) <= 1)%nat ∧
  (length (calls is_start_session new) <= 2)%nat ∧
  (length (calls is_disconnect new) <= 1)%nat ∧
  (length (calls is_start_session new) = 2%nat ->
   pin = VNone ∧
   refused <$> head (calls is_start_session new) = Some true ∧
   returned <$> calls is_register new = [true]).
Proof.
  intros H.
  destruct self as [[b|] u d uid]; destruct u, pin; register_paths H.
  all: simpl; split_and!; try lia; try (intros; discriminate); try done.
Qed.

(** X5.  What [_register] sends.  A registration carries the PIN the routine
    was given, or the default PIN "0000" when it was given none; it is made
    under the name "Home Assistant (<location>)".  Every call goes to the
    bridge of the flow, and every session start takes the session over. *)
Theorem register_sends pin self tr r self' new :
  _register lib env pin self tr = (r, self', tr ++ new) ->
  Forall (fun e =>
            match ev_call e with
            | RegisterApp b u n p =>
                bridge self = Some b ∧ u = local_uuid self' ∧
                n = "Home Assistant (" +:+ location_name env +:+ ")" ∧
                p = (if is_none pin then VStr "0000" else pin)
            | Connect b u => bridge self = Some b ∧ u = local_uuid self'
            | StartSession b t => bridge self = Some b ∧ t = true
            | Disconnect b => bridge self = Some b
            | _ => True
            end) new.
Proof.
  intros H.
  destruct self as [[b|] u d uid]; destruct u, pin; register_paths H.
  all: repeat constructor.
Qed.

(** X6.  [_register] changes nothing of the flow but its local identifier:
    the bridge, the discovered bridges and the unique id are as before, and
    after the run the flow has a local identifier whatever the outcome. *)
Theorem register_keeps_flow pin self tr r self' tr' :
  _register lib env pin self tr = (r, self', tr') ->
  bridge self' = bridge self ∧
  discovered_bridges self' = discovered_bridges self ∧
  unique_id self' = unique_id self ∧
  local_uuid self' ≠ VNone.
Proof.
  intros H.
  destruct self as [[b|] u d uid]; destruct u, pin;
    revert H; unfold _register, _register_over;
    rewrite !async_step_enter_pin_empty; unfold_wizard; simpl;
    repeat (answer; simpl); intros [= <- <- <-].
  all: done.
Qed.

(** ** The steps *)

Ltac pick :=
  match goal with
  | |- context [?ui !! CONF_UUID] =>
      destruct (ui !! CONF_UUID) as [[|?|?]|] eqn:?
  | |- context [?ui !! CONF_HOST] =>
      destruct (ui !! CONF_HOST) as [[|?|?]|] eqn:?
  | |- context [decide (VStr ?k = VStr ?m)] =>
      destruct (decide (VStr k = VStr m)) as [[= ->]|?]
  | |- context [match ?d !! ?k with _ => _ end] =>
      destruct (d !! k) eqn:?
  | |- context [truthy ?d] => destruct (truthy d) eqn:?
  | |- context [_parse_optional_pin ?l ?ui ?e] =>
      destruct (_parse_optional_pin l ui e) as [? ?] eqn:?
  end.

Ltac step_paths :=
  unfold async_step_user, async_step_manual; unfold_wizard; simpl;
  repeat (first [pick | answer_step]; simpl).

(** The run of [_register] met in a step, with the events it added. *)
Ltac registered :=
  match goal with
  | H : _register _ _ _ _ _ = (_, _, _) |- _ =>
      let F := fresh in
      pose proof H as F; apply register_frame in F;
      simpl in F; destruct F as (? & ? & ? & _ & ? & ->)
  end.

(** X7.  The PIN step.  Without an input, or with an input that holds no
    PIN, it shows its form with the errors it was handed (none when it was
    handed none) and calls nothing.  With a PIN it runs [_register] with that
    PIN, and whatever that run ends in, other than a timeout, is what the
    step ends in. *)
Theorem enter_pin_step user_input errors self tr :
  (match user_input with
   | None => True
   | Some ui => ui !! CONF_PIN = None
   end ->
   async_step_enter_pin lib env user_input errors self tr
   = (Return (Form "enter_pin" (default ∅ errors) PinSchema), self, tr)) ∧
  (∀ ui pin outcome,
     user_input = Some ui -> ui !! CONF_PIN = Some pin ->
     _register lib env pin self tr = outcome ->
     outcome.1.1 ≠ Raise AioComfoConnectTimeout ->
     async_step_enter_pin lib env user_input errors self tr = outcome).
Proof.
  unfold async_step_enter_pin, async_step_enter_pin_over. split.
  - destruct user_input as [ui|]; [|done]. intros ->.
    by rewrite andb_false_r.
  - intros ui pin [[r s] t] -> Hpin Hreg Hne. simpl in Hne.
    rewrite (truthy_lookup _ _ _ Hpin), Hpin. simpl.
    unfold subscript. rewrite Hpin. unfold_wizard. rewrite Hreg.
    destruct r as [res|e]; [done|].
    destruct (decide (e = AioComfoConnectTimeout)); [by subst|done].
Qed.

(** X8.  A failure of a call of the handshake that is not a refusal (a
    timeout, or any other exception of the library) is never swallowed by
    [_register]: the routine returns nothing.  When no disconnect was made or
    the disconnect came back, what it raises is that failure. *)
Theorem register_passes_failures_on pin self tr r self' new :
  _register lib env pin self tr = (r, self', tr ++ new) ->
  happened bridge_call failed new = true ->
  ∃ e, r = Raise e ∧
    (happened is_disconnect returned new = true ∨ calls is_disconnect new = [] ->
     ∃ c, bridge_call c = true ∧ mkEvent c (Some e) ∈ new ∧
          e ≠ ComfoConnectNotAllowed).
Proof.
  intros H Hf.
  destruct self as [[b|] u d uid]; destruct u, pin; register_paths H.
  all: try discriminate Hf.
  all: repeat match goal with
              | e : Exc |- _ => destruct e; try contradiction
              end.
  all: try discriminate Hf.
  all: eexists; split; [reflexivity|]; intros [Hd|Hd]; try discriminate Hd.
  all: eexists; split_and!;
    [ | apply list_elem_of_In; simpl; eauto 10 | done ]; reflexivity.
Qed.

(** ** The PIN *)

Lemma validator_bounds v z :
  PIN_VALIDATOR lib v = Some z -> (0 <= z <= 9999)%Z.
Proof.
  unfold PIN_VALIDATOR. intros H.
  destruct (Coerce_int lib v) as [z'|] eqn:E; simpl in H; [|done].
  unfold Range in H.
  destruct (Z.ltb_spec z' 0); [done|].
  destruct (Z.ltb_spec 9999 z'); [done|]. injection H as ->. lia.
Qed.

(** What [_parse_optional_pin] hands back. *)
Lemma parsed_pin ui errors pin errors' :
  _parse_optional_pin lib ui errors = (pin, errors') ->
  pin = VNone ∨ ∃ z, pin = VInt z ∧ (0 <= z <= 9999)%Z ∧ errors' = errors.
Proof.
  unfold _parse_optional_pin.
  destruct (decide _); [intros [= <- <-]; by left|].
  destruct (PIN_VALIDATOR lib _) as [z|] eqn:E; intros [= <- <-]; [|by left].
  right. exists z. by apply validator_bounds in E.
Qed.

(** X9.  A PIN that [PIN_VALIDATOR] accepts lies between 0 and 9999 and is
    accepted again, unchanged, when it is validated as the integer it is;
    [None] is never a valid PIN. *)
Theorem pin_validator_range v z :
  PIN_VALIDATOR lib v = Some z ->
  (0 <= z <= 9999)%Z ∧ PIN_VALIDATOR lib (VInt z) = Some z ∧ v ≠ VNone.
Proof.
  intros H. pose proof (validator_bounds _ _ H) as Hz.
  split; [done|]. split; [|by intros ->].
  unfold PIN_VALIDATOR. simpl. unfold Range.
  destruct (Z.ltb_spec z 0); [lia|]. by destruct (Z.ltb_spec 9999 z); [lia|].
Qed.

(** X10.  [_parse_optional_pin] and the errors it is handed.  It only ever
    writes the error of the PIN: every other key is as before.  It reports an
    error and a PIN never together, and an input without a PIN gives neither,
    like the empty text. *)
Theorem parse_optional_pin_errors ui errors pin errors' :
  _parse_optional_pin lib ui errors = (pin, errors') ->
  (∀ k, k ≠ CONF_PIN -> errors' !! k = errors !! k) ∧
  (pin ≠ VNone -> errors' = errors) ∧
  (errors' ≠ errors ->
   pin = VNone ∧ errors' !! CONF_PIN = Some "invalid_pin") ∧
  (ui !! CONF_PIN = None -> pin = VNone ∧ errors' = errors).
Proof.
  unfold _parse_optional_pin, dict_get.
  destruct (ui !! CONF_PIN) as [v|] eqn:Ev; simpl.
  2:{ intros [= <- <-]. done. }
  destruct (decide _); [intros [= <- <-]; done|].
  destruct (PIN_VALIDATOR lib v) as [z|]; intros [= <- <-].
  - done.
  - split_and!; try done.
    + intros k Hk. by rewrite lookup_insert_ne.
    + intros _. split; [done|]. apply lookup_insert_eq.
Qed.

(** ** The manual step *)

(** X11.  The manual step and its discovery.  Without an input, or with a
    host that is [None], it shows its form without an error and calls
    nothing; an input without the host key is a [KeyError].  When the
    discovery at the host finds no bridge the form is shown again with the
    error invalid_host and the host as its default, and the flow gets no
    bridge; an exception of the discovery is passed on. *)
Theorem manual_step_discovery self tr :
  async_step_manual lib env None self tr
  = (Return (Form "manual" ∅ (ManualSchema VNone)), self, tr) ∧
  (∀ ui, ui !! CONF_HOST = None ->
     async_step_manual lib env (Some ui) self tr
     = (Raise (PyError "KeyError"), self, tr)) ∧
  (∀ ui, ui !! CONF_HOST = Some VNone ->
     async_step_manual lib env (Some ui) self tr
     = (Return (Form "manual" ∅ (ManualSchema VNone)), self, tr)) ∧
  (∀ ui h, ui !! CONF_HOST = Some h -> h ≠ VNone ->
     lib_discover_bridges lib tr h = Return [] ->
     async_step_manual lib env (Some ui) self tr
     = (Return (Form "manual" {["base" := "invalid_host"]} (ManualSchema h)),
        self, tr ++ [mkEvent (Discover h) None])) ∧
  (∀ ui h e, ui !! CONF_HOST = Some h -> h ≠ VNone ->
     lib_discover_bridges lib tr h = Raise e ->
     async_step_manual lib env (Some ui) self tr
     = (Raise e, self, tr ++ [mkEvent (Discover h) (Some e)])).
Proof.
  split_and!.
  - done.
  - intros ui Hh. unfold async_step_manual, subscript. by rewrite Hh.
  - intros ui Hh. unfold async_step_manual, subscript, dict_get.
    rewrite Hh, (truthy_lookup _ _ _ Hh). done.
  - intros ui h Hh Hne Hd. unfold async_step_manual, subscript, dict_get.
    rewrite Hh, (truthy_lookup _ _ _ Hh). unfold_wizard. simpl.
    destruct h; [done| |]; simpl; by rewrite Hd.
  - intros ui h e Hh Hne Hd. unfold async_step_manual, subscript.
    rewrite Hh. unfold_wizard. simpl.
    destruct h; [done| |]; simpl; by rewrite Hd.
Qed.

(** X12.  What the manual step sends to a bridge.  Every call of the
    handshake goes to the first bridge its discovery found, which is the
    bridge of the flow afterwards; and a PIN that is sent is the default PIN
    "0000" or an integer between 0 and 9999. *)
Theorem manual_step_sends ui h self tr r self' new :
  ui !! CONF_HOST = Some h ->
  async_step_manual lib env (Some ui) self tr = (r, self', tr ++ new) ->
  Forall (fun e =>
            (∀ b, bridge_of (ev_call e) = Some b ->
                  bridge self' = Some b ∧
                  ∃ rest, lib_discover_bridges lib tr h = Return (b :: rest)) ∧
            (∀ p, pin_of (ev_call e) = Some p ->
                  p = VStr "0000" ∨ ∃ z, p = VInt z ∧ (0 <= z <= 9999)%Z))
         new.
Proof.
  intros Hh H. revert H. destruct self as [b0 u d0 uid].
  unfold async_step_manual, subscript. rewrite Hh. unfold_wizard. simpl.
  destruct h; simpl; repeat (first [pick | answer_step]; simpl).
  all: try registered.
  all: intros Hrun; ran Hrun.
  all: try (repeat constructor; simpl; intros; discriminate).
  all: match goal with
       | R : _register _ _ _ _ _ = _, P : _parse_optional_pin _ _ _ = _ |- _ =>
           pose proof R as Hc; apply register_calls in Hc;
           apply parsed_pin in P; rename P into Hpin
       end.
  all: constructor; [split; simpl; intros; discriminate|].
  all: eapply Forall_impl; [exact Hc|]; simpl.
  all: intros ev (Hp & Hb & _); split.
  all: try (intros b' Hb'; apply Hb in Hb'; simplify_eq;
            split; [assumption|by eexists]).
  all: intros p Hp'; apply Hp in Hp'; subst p.
  all: destruct Hpin as [->|(? & -> & ? & _)]; simpl; eauto.
Qed.

(** ** Import and reauthentication *)

(** X13.  An import is the manual step at the imported host, with the token
    of the configuration as the local identifier and without a PIN.  So an
    import never sends a PIN of its own: a registration it makes carries the
    default PIN "0000".  With a token, no identifier is generated and every
    connect and register call carries the token; a configuration without a
    host is a [KeyError], raised before any call. *)
Theorem import_step cfg self tr r self' new :
  async_step_import lib env (Some cfg) self tr = (r, self', tr ++ new) ->
  Forall (fun e => ∀ p, pin_of (ev_call e) = Some p -> p = VStr "0000") new ∧
  (∀ token, cfg !! "token" = Some token -> token ≠ VNone ->
     calls is_random_uuid new = [] ∧
     Forall (fun e => ∀ x, identifier_of (ev_call e) = Some x -> x = token)
            new) ∧
  (cfg !! CONF_HOST = None -> r = Raise (PyError "KeyError") ∧ new = []).
Proof.
  intros H. revert H. destruct self as [b0 u d0 uid].
  unfold async_step_import, subscript.
  remember (dict_get cfg "token" VNone) as given eqn:Hgiven.
  destruct (cfg !! CONF_HOST) as [h|] eqn:Hh.
  2:{ unfold_wizard. intros Hrun; ran Hrun. by split_and!. }
  unfold_wizard.
  unfold async_step_manual, subscript, _parse_optional_pin, dict_get.
  rewrite lookup_singleton_eq, lookup_singleton_ne by done.
  rewrite (truthy_lookup _ CONF_HOST h) by apply lookup_singleton_eq.
  unfold_wizard. simpl. rewrite truthy_empty.
  destruct h; simpl; repeat (answer_step; simpl).
  all: try registered.
  all: intros Hrun; ran Hrun.
  all: try (split_and!; [repeat constructor; simpl; intros; discriminate
                        | intros ? _ _; split; [done|];
                          repeat constructor; simpl; intros; discriminate
                        | intros; discriminate ]).
  all: match goal with
       | R : _register _ _ _ _ _ = _ |- _ =>
           pose proof R as Hc; apply register_calls in Hc;
           pose proof R as Hi; apply register_identifier in Hi;
           simpl in Hi; destruct Hi as (_ & Hi & Hall)
       end.
  all: split_and!; [ | | intros; discriminate ].
  all: try (constructor; [simpl; intros; discriminate|];
            eapply Forall_impl; [exact Hc|]; simpl;
            intros ev (Hp & _) p Hp'; by apply Hp in Hp').
  all: intros token Htok Hne; unfold dict_get in Hi;
    rewrite Htok in Hi; simpl in Hi.
  all: destruct (Hi Hne) as [Hu Hr]; split; [exact Hr|].
  all: constructor; [simpl; intros; discriminate|].
  all: eapply Forall_impl; [exact Hall|]; simpl.
  all: intros ev Hev y Hy; apply Hev in Hy; congruence.
Qed.

(** X14.  Reauthentication reads back what [_register] wrote.  Given the
    data of an entry that [_register] created in an earlier flow, the
    reauthentication step registers again at the bridge of that entry with
    the local identifier of that entry: it is [_register] without a PIN, run
    on that bridge and that identifier. *)
Theorem reauth_reads_entry lib0 env0 pin self tr title data self' tr' any tr0 :
  _register lib0 env0 pin self tr
  = (Return (CreateEntry title data), self', tr') ->
  ∃ b, bridge self' = Some b ∧
    async_step_reauth lib env (Some data) any tr0
    = _register lib env VNone
        {| bridge := Some b; local_uuid := local_uuid self';
           discovered_bridges := discovered_bridges any;
           unique_id := unique_id any |} tr0.
Proof.
  intros H. pose proof H as F. apply register_frame in F as (Hb & _).
  apply register_results in H as [[? ?]|[(b & Hb' & H)|?]]; try discriminate.
  injection H as -> ->. exists b. split; [congruence|].
  set (data := <[CONF_LOCAL_UUID := local_uuid self']> _).
  assert (Eh : data !! CONF_HOST = Some (VStr (host b))) by reflexivity.
  assert (Eu : data !! CONF_UUID = Some (VStr (uuid b))) by reflexivity.
  assert (El : data !! CONF_LOCAL_UUID = Some (local_uuid self'))
    by apply lookup_insert_eq.
  unfold async_step_reauth, subscript. rewrite Eh, Eu, El.
  unfold_wizard. simpl. by destruct b, any.
Qed.

(** X15.  A reauthentication on incomplete data fails before any call.  No
    data at all is a [TypeError].  When the host, the identifier of the
    bridge or the local identifier is missing from data whose host and
    identifier are texts, it is a [KeyError]; the trace is as it was and the
    local identifier of the flow is untouched. *)
Theorem reauth_incomplete self tr :
  async_step_reauth lib env None self tr
  = (Raise (PyError "TypeError"), self, tr) ∧
  ∀ ui,
    ui !! CONF_HOST = None ∨ ui !! CONF_UUID = None ∨
    ui !! CONF_LOCAL_UUID = None ->
    (∀ v, ui !! CONF_HOST = Some v -> ∃ s, v = VStr s) ->
    (∀ v, ui !! CONF_UUID = Some v -> ∃ s, v = VStr s) ->
    ∃ self', async_step_reauth lib env (Some ui) self tr
             = (Raise (PyError "KeyError"), self', tr) ∧
             local_uuid self' = local_uuid self.
Proof.
  split; [done|]. intros ui Hmiss Hh Hu.
  unfold async_step_reauth, subscript, Bridge_of. unfold_wizard.
  destruct (ui !! CONF_HOST) as [h|]; simpl; [|by eexists].
  destruct (Hh h eq_refl) as [s ->].
  destruct (ui !! CONF_UUID) as [u|]; simpl; [|by eexists].
  destruct (Hu u eq_refl) as [s' ->].
  destruct (ui !! CONF_LOCAL_UUID) as [?|]; simpl; [|by eexists].
  destruct Hmiss as [?|[?|?]]; discriminate.
Qed.

(** ** The PIN prompt and the next attempt *)

(** X16.  After an attempt of [_register], whatever it ended in, the PIN
    step that follows it registers with the same local identifier at the same
    bridge: it generates no identifier, every connect and register call it
    makes carries the identifier the flow had after the first attempt, a PIN
    it sends is the PIN of its input, and the flow keeps bridge and
    identifier. *)
Theorem next_attempt_reuses_identifier
    pin0 self tr r1 self1 tr1 ui pin errors r2 self2 new :
  _register lib env pin0 self tr = (r1, self1, tr1) ->
  ui !! CONF_PIN = Some pin -> pin ≠ VNone ->
  async_step_enter_pin lib env (Some ui) errors self1 tr1
  = (r2, self2, tr1 ++ new) ->
  calls is_random_uuid new = [] ∧
  local_uuid self2 = local_uuid self1 ∧ bridge self2 = bridge self ∧
  Forall (fun e =>
            (∀ x, identifier_of (ev_call e) = Some x -> x = local_uuid self1) ∧
            (∀ p, pin_of (ev_call e) = Some p -> p = pin) ∧
            (∀ b, bridge_of (ev_call e) = Some b -> bridge self = Some b))
         new.
Proof.
  intros H1 Hpin Hne H2.
  pose proof H1 as F1. apply register_frame in F1 as (Hb1 & _ & _ & _ & new1 & ->).
  apply register_identifier in H1 as (Hu1 & _).
  revert H2. unfold async_step_enter_pin, async_step_enter_pin_over.
  rewrite (truthy_lookup _ _ _ Hpin), Hpin. simpl.
  unfold subscript. rewrite Hpin. unfold_wizard.
  destruct (_register lib env pin self1 (tr ++ new1)) as [[r s] t] eqn:H2.
  pose proof H2 as F2. apply register_frame in F2 as (Hb2 & _ & _ & _ & new2 & ->).
  pose proof H2 as C2. apply register_calls in C2.
  apply register_identifier in H2 as (_ & Hi & Hall).
  destruct (Hi Hu1) as [Hu2 Hr].
  assert (G : (r2, self2, (tr ++ new1) ++ new) = (r2, s, (tr ++ new1) ++ new2) ->
              calls is_random_uuid new = [] ∧
              local_uuid self2 = local_uuid self1 ∧ bridge self2 = bridge self ∧
              Forall (fun e =>
                (∀ x, identifier_of (ev_call e) = Some x -> x = local_uuid self1) ∧
                (∀ p, pin_of (ev_call e) = Some p -> p = pin) ∧
                (∀ b, bridge_of (ev_call e) = Some b -> bridge self = Some b))
              new).
  { intros Heq. injection Heq as -> Heq. apply app_inv_head in Heq. subst new.
    split_and!; [done|done|congruence|].
    rewrite Forall_forall in *. intros ev Hev. split_and!.
    - intros x Hx. rewrite <- Hu2. by eapply Hall.
    - intros p Hp. destruct (C2 _ Hev) as (Hp' & _). apply Hp' in Hp.
      by destruct pin.
    - intros b Hb. destruct (C2 _ Hev) as (_ & Hb' & _). apply Hb' in Hb.
      congruence. }
  destruct r as [res|e]; [intros [= <- <- E]; apply G; by rewrite E|].
  destruct (decide (e = AioComfoConnectTimeout));
    intros [= <- <- E]; apply G; by rewrite E.
Qed.

(** ** The user step *)

Lemma unconfigured_complete ids (found : list Bridge) b :
  b ∈ found -> uuid b ∉ ids -> is_Some (unconfigured ids found !! uuid b).
Proof.
  intros Hin Hid. unfold unconfigured.
  assert (G : ∀ (l : list Bridge) (acc : gmap string Bridge) k,
             is_Some (acc !! k) ∨ (∃ x, x ∈ l ∧ uuid x = k) ->
             is_Some (foldl (fun d b => <[uuid b := b]> d) acc l !! k)).
  { induction l as [|x l IH]; intros acc k; simpl.
    - intros [?|(x & Hx & _)]; [done|]. by apply elem_of_nil in Hx.
    - intros [Hacc|(y & Hy & Hk)]; apply IH.
      + left. destruct (decide (uuid x = k)) as [<-|?].
        * rewrite lookup_insert_eq. by eexists.
        * by rewrite lookup_insert_ne.
      + apply elem_of_cons in Hy as [->|Hy].
        * left. rewrite Hk, lookup_insert_eq. by eexists.
        * right. eauto. }
  apply G. right. exists b. split; [|done].
  apply list_elem_of_filter. done.
Qed.

(** Over a dictionary keyed by the identifiers of its bridges, the choices
    name the host of each bridge under its key. *)
Lemma bridge_choices_lookup (d : gmap string Bridge) k :
  (∀ k b, d !! k = Some b -> uuid b = k) ->
  bridge_choices d !! k = host <$> d !! k.
Proof.
  intros Hkey. unfold bridge_choices.
  set (f := fun kb : string * Bridge => (uuid kb.2, host kb.2)).
  assert (Hfst : (f <$> map_to_list d).*1 = (map_to_list d).*1).
  { rewrite <- list_fmap_compose. apply Forall_fmap_ext_1.
    apply Forall_forall. intros [k' b] Hin. simpl.
    apply elem_of_map_to_list in Hin. by apply Hkey. }
  destruct (d !! k) as [b|] eqn:Hb; simpl.
  - apply elem_of_list_to_map_1.
    + rewrite Hfst. apply NoDup_fst_map_to_list.
    + apply list_elem_of_fmap. exists (k, b). split.
      * unfold f. simpl. by rewrite (Hkey _ _ Hb).
      * by apply elem_of_map_to_list.
  - apply not_elem_of_list_to_map_1. rewrite Hfst.
    intros Hin. apply list_elem_of_fmap in Hin as ([k' b] & -> & Hin).
    apply elem_of_map_to_list in Hin. simpl in Hb. congruence.
Qed.

(** X17.  What the user form offers.  Started without an input, the user
    step discovers the bridges of the network and keeps, under its
    identifier, every bridge found that has no entry, and no other.  The
    form it shows offers the sentinel "manual" and, for each identifier
    kept, the host of the bridge that selecting it will make the target. *)
Theorem user_form_offers self tr found :
  lib_discover_bridges lib tr VNone = Return found ->
  ∃ choices d,
    async_step_user lib env None self tr
    = (Return (Form "user" ∅ (UserSchema VNone choices)),
       {| bridge := bridge self; local_uuid := local_uuid self;
          discovered_bridges := Some d; unique_id := unique_id self |},
       tr ++ [mkEvent (Discover VNone) None]) ∧
    (∀ k b, d !! k = Some b ->
            uuid b = k ∧ b ∈ found ∧ k ∉ current_ids env) ∧
    (∀ b, b ∈ found -> uuid b ∉ current_ids env -> is_Some (d !! uuid b)) ∧
    choices !! COMFOCONNECT_MANUAL_BRIDGE_ID
    = Some "Manually add a ComfoConnect LAN C Bridge" ∧
    (∀ k, k ≠ COMFOCONNECT_MANUAL_BRIDGE_ID ->
          choices !! k = host <$> d !! k).
Proof.
  intros Hd. eexists _, (unconfigured (current_ids env) found).
  split_and!.
  - unfold async_step_user. unfold_wizard. rewrite Hd. reflexivity.
  - intros k b Hb. apply unconfigured_lookup in Hb as (<- & ? & ?). done.
  - intros b ? ?. by apply unconfigured_complete.
  - simpl. apply lookup_insert_eq.
  - intros k Hk. simpl. rewrite lookup_insert_ne by done.
    apply bridge_choices_lookup.
    intros k' b Hb. by apply unconfigured_lookup in Hb as (? & _).
Qed.

(** X18.  A selection the user step cannot follow.  An input without the
    identifier key, an identifier that is not among the discovered bridges,
    or that is not a text, is a [KeyError]; a selection made before any
    discovery is a [TypeError].  None of them changes the flow or makes a
    call.  An identifier that is [None] is treated like no input at all. *)
Theorem user_step_bad_selection ui self tr :
  (ui !! CONF_UUID = None ->
   async_step_user lib env (Some ui) self tr
   = (Raise (PyError "KeyError"), self, tr)) ∧
  (∀ k, ui !! CONF_UUID = Some (VStr k) ->
        k ≠ COMFOCONNECT_MANUAL_BRIDGE_ID ->
        match discovered_bridges self with
        | None =>
            async_step_user lib env (Some ui) self tr
            = (Raise (PyError "TypeError"), self, tr)
        | Some d =>
            d !! k = None ->
            async_step_user lib env (Some ui) self tr
            = (Raise (PyError "KeyError"), self, tr)
        end) ∧
  (∀ z d, ui !! CONF_UUID = Some (VInt z) ->
          discovered_bridges self = Some d ->
          async_step_user lib env (Some ui) self tr
          = (Raise (PyError "KeyError"), self, tr)) ∧
  (ui !! CONF_UUID = Some VNone ->
   async_step_user lib env (Some ui) self tr
   = async_step_user lib env None self tr).
Proof.
  destruct self as [b u d uid].
  unfold async_step_user, subscript. split_and!.
  - by intros ->.
  - intros k -> Hne. unfold_wizard. simpl.
    destruct (decide (VStr k = VStr COMFOCONNECT_MANUAL_BRIDGE_ID))
      as [[= ->]|_]; [done|].
    simpl. destruct d as [d|]; [|done]. by intros ->.
  - intros z d' -> Hd. simpl in Hd. subst d. unfold_wizard. by simpl.
  - intros ->. unfold_wizard. by simpl.
Qed.
End Further.

(** ** These properties at the runs above *)

Lemma register_keeps_given_identifier_witness :
  calls is_random_uuid (tail (paired (VInt 1234))) = [] ∧
  local_uuid registering = local_uuid registering ∧
  Forall (fun e => ∀ x, identifier_of (ev_call e) = Some x ->
                        x = local_uuid registering)
         (tail (paired (VInt 1234))) ∧
  (∀ title data, Return lanc_entry = Return (CreateEntry title data) ->
     data !! CONF_LOCAL_UUID = Some (local_uuid registering)).
Proof.
  apply (register_keeps_given_identifier open_bridge user_env (VInt 1234)
           registering [] (Return lanc_entry) registering
           (tail (paired (VInt 1234)))).
  - discriminate.
  - vm_compute. reflexivity.
Defined.

Lemma register_reauth_reloads_witness :
  (context_source reauthenticating ≠ Some SOURCE_REAUTH ->
   calls is_reload reauthenticated = []) ∧
  (context_source reauthenticating = Some SOURCE_REAUTH ->
   (∀ title data,
      Return (AbortResult "reauth_successful")
      ≠ Return (CreateEntry title data)) ∧
   (calls is_reload reauthenticated ≠ [] ->
    Return (AbortResult "reauth_successful")
    = Return (AbortResult "reauth_successful")) ∧
   (ended is_start_session returned reauthenticated = true ->
    happened is_disconnect returned reauthenticated = true ->
    match context_entry_id reauthenticating with
    | Some entry_id =>
        Return (AbortResult "reauth_successful")
        = Return (AbortResult "reauth_successful") ∧
        last reauthenticated = Some (mkEvent (AsyncReload entry_id) None) ∧
        calls is_reload reauthenticated
        = [mkEvent (AsyncReload entry_id) None]
    | None =>
        Return (AbortResult "reauth_successful")
        = Raise (PyError "KeyError") ∧
        calls is_reload reauthenticated = []
    end)).
Proof.
  apply (register_reauth_reloads open_bridge reauthenticating VNone
           registering [] (Return (AbortResult "reauth_successful"))
           registering reauthenticated).
  vm_compute. reflexivity.
Defined.

Lemma register_connect_failure_witness :
  calls is_register unanswered = [] ∧ calls is_start_session unanswered = [] ∧
  calls is_disconnect unanswered = [] ∧ calls is_reload unanswered = [] ∧
  match bridge registering with
  | Some b =>
      ∃ u e, calls is_connect unanswered = [mkEvent (Connect b u) (Some e)] ∧
             (_register silent user_env (VInt 1234) registering []).1.1
             = Raise e
  | None => calls is_connect unanswered = [] ∧
            (_register silent user_env (VInt 1234) registering []).1.1
            = Raise (PyError "AttributeError")
  end.
Proof.
  apply (register_connect_failure silent user_env (VInt 1234) registering []
           _ registering unanswered).
  - vm_compute. reflexivity.
  - reflexivity.
Defined.

Lemma register_call_bounds_witness :
  (length (calls is_connect paired_by_default) <= 1)%nat ∧
  (length (calls is_register paired_by_default) <= 1)%nat ∧
  (length (calls is_start_session paired_by_default) <= 2)%nat ∧
  (length (calls is_disconnect paired_by_default) <= 1)%nat ∧
  (length (calls is_start_session paired_by_default) = 2%nat ->
   VNone = VNone ∧
   refused <$> head (calls is_start_session paired_by_default) = Some true ∧
   returned <$> calls is_register paired_by_default = [true]).
Proof.
  apply (register_call_bounds unregistered user_env VNone picked []
           (Return lanc_entry) registering paired_by_default).
  vm_compute. reflexivity.
Defined.

Lemma register_sends_witness :
  Forall (fun e =>
            match ev_call e with
            | RegisterApp b u n p =>
                bridge picked = Some b ∧ u = local_uuid registering ∧
                n = "Home Assistant (" +:+ location_name user_env +:+ ")" ∧
                p = (if is_none (VInt 1234) then VStr "0000" else VInt 1234)
            | Connect b u => bridge picked = Some b ∧ u = local_uuid registering
            | StartSession b t => bridge picked = Some b ∧ t = true
            | Disconnect b => bridge picked = Some b
            | _ => True
            end) (paired (VInt 1234)).
Proof.
  apply (register_sends open_bridge user_env (VInt 1234) picked []
           (Return lanc_entry) registering (paired (VInt 1234))).
  vm_compute. reflexivity.
Defined.

Lemma register_keeps_flow_witness :
  bridge registering = bridge picked ∧
  discovered_bridges registering = discovered_bridges picked ∧
  unique_id registering = unique_id picked ∧
  local_uuid registering ≠ VNone.
Proof.
  apply (register_keeps_flow locked user_env VNone picked []
           (Return (Form "enter_pin" ∅ PinSchema)) registering
           default_refused).
  vm_compute. reflexivity.
Defined.

Lemma enter_pin_step_witness :
  async_step_enter_pin open_bridge user_env
    (Some {[CONF_PIN := VInt 1234]}) None picked []
  = (Return lanc_entry, registering, paired (VInt 1234)).
Proof.
  apply (proj2 (enter_pin_step open_bridge user_env
                  (Some {[CONF_PIN := VInt 1234]}) None picked [])
           {[CONF_PIN := VInt 1234]} (VInt 1234)).
  - reflexivity.
  - reflexivity.
  - vm_compute. reflexivity.
  - discriminate.
Defined.

Lemma register_passes_failures_on_witness :
  ∃ e, (_register silent user_env (VInt 1234) registering []).1.1 = Raise e ∧
    (happened is_disconnect returned unanswered = true ∨
     calls is_disconnect unanswered = [] ->
     ∃ c, bridge_call c = true ∧ mkEvent c (Some e) ∈ unanswered ∧
          e ≠ ComfoConnectNotAllowed).
Proof.
  apply (register_passes_failures_on silent user_env (VInt 1234) registering
           [] _ registering unanswered).
  - vm_compute. reflexivity.
  - reflexivity.
Defined.

Lemma pin_validator_range_witness :
  (0 <= 42 <= 9999)%Z ∧ PIN_VALIDATOR open_bridge (VInt 42) = Some 42%Z ∧
  VStr "0042" ≠ VNone.
Proof.
  apply (pin_validator_range open_bridge (VStr "0042") 42).
  vm_compute. reflexivity.
Defined.

Lemma parse_optional_pin_errors_witness :
  (∀ k, k ≠ CONF_PIN ->
        ({[CONF_PIN := "invalid_pin"]} : Errors) !! k = (∅ : Errors) !! k) ∧
  (VNone ≠ VNone -> ({[CONF_PIN := "invalid_pin"]} : Errors) = ∅) ∧
  (({[CONF_PIN := "invalid_pin"]} : Errors) ≠ ∅ ->
   VNone = VNone ∧
   ({[CONF_PIN := "invalid_pin"]} : Errors) !! CONF_PIN = Some "invalid_pin") ∧
  (long_pin !! CONF_PIN = None ->
   VNone = VNone ∧ ({[CONF_PIN := "invalid_pin"]} : Errors) = ∅).
Proof.
  apply (parse_optional_pin_errors open_bridge long_pin ∅ VNone
           {[CONF_PIN := "invalid_pin"]}).
  vm_compute. reflexivity.
Defined.

Lemma manual_step_discovery_witness :
  async_step_manual deserted user_env (Some long_pin) init []
  = (Return (Form "manual" {["base" := "invalid_host"]}
               (ManualSchema (VStr "192.168.1.20"))),
     init, [] ++ [mkEvent (Discover (VStr "192.168.1.20")) None]).
Proof.
  apply (proj1 (proj2 (proj2 (proj2
           (manual_step_discovery deserted user_env init []))))
           long_pin (VStr "192.168.1.20")).
  - reflexivity.
  - discriminate.
  - reflexivity.
Defined.

Lemma manual_step_sends_witness :
  Forall (fun e =>
            (∀ b, bridge_of (ev_call e) = Some b ->
                  bridge manually_paired = Some b ∧
                  ∃ rest, lib_discover_bridges open_bridge []
                            (VStr "192.168.1.20") = Return (b :: rest)) ∧
            (∀ p, pin_of (ev_call e) = Some p ->
                  p = VStr "0000" ∨ ∃ z, p = VInt z ∧ (0 <= z <= 9999)%Z))
         (event (Discover (VStr "192.168.1.20")) :: paired (VInt 42)).
Proof.
  apply (manual_step_sends open_bridge user_env short_pin
           (VStr "192.168.1.20") init [] (Return lanc_entry)).
  - reflexivity.
  - vm_compute. reflexivity.
Defined.

Lemma import_step_witness :
  Forall (fun e => ∀ p, pin_of (ev_call e) = Some p -> p = VStr "0000")
         imported ∧
  (∀ token, yaml !! "token" = Some token -> token ≠ VNone ->
     calls is_random_uuid imported = [] ∧
     Forall (fun e => ∀ x, identifier_of (ev_call e) = Some x -> x = token)
            imported) ∧
  (yaml !! CONF_HOST = None ->
   Return lanc_entry = Raise (PyError "KeyError") ∧ imported = []).
Proof.
  apply (import_step open_bridge (home (Some "import") ∅) yaml init []
           (Return lanc_entry) manually_paired imported).
  vm_compute. reflexivity.
Defined.

Lemma reauth_reads_entry_witness :
  ∃ b, bridge registering = Some b ∧
    async_step_reauth open_bridge reauthenticating (Some lanc_data) init []
    = _register open_bridge reauthenticating VNone
        {| bridge := Some b; local_uuid := local_uuid registering;
           discovered_bridges := discovered_bridges init;
           unique_id := unique_id init |} [].
Proof.
  apply (reauth_reads_entry open_bridge reauthenticating open_bridge user_env
           (VInt 1234) picked [] "192.168.1.20" lanc_data registering
           (paired (VInt 1234)) init []).
  vm_compute. reflexivity.
Defined.

Lemma reauth_incomplete_witness :
  ∃ self', async_step_reauth open_bridge reauthenticating
             (Some {[CONF_HOST := VStr "192.168.1.20"]}) init []
           = (Raise (PyError "KeyError"), self', []) ∧
           local_uuid self' = local_uuid init.
Proof.
  apply (proj2 (reauth_incomplete open_bridge reauthenticating init [])
           {[CONF_HOST := VStr "192.168.1.20"]}).
  - right. left. reflexivity.
  - intros v. vm_compute. intros [= <-]. by eexists.
  - intros v. vm_compute. discriminate.
Defined.

Lemma next_attempt_reuses_identifier_witness :
  calls is_random_uuid (tail (turned_away_for_good (VInt 1234))) = [] ∧
  local_uuid registering = local_uuid registering ∧
  bridge registering = bridge picked ∧
  Forall (fun e =>
            (∀ x, identifier_of (ev_call e) = Some x ->
                  x = local_uuid registering) ∧
            (∀ p, pin_of (ev_call e) = Some p -> p = VInt 1234) ∧
            (∀ b, bridge_of (ev_call e) = Some b -> bridge picked = Some b))
         (tail (turned_away_for_good (VInt 1234))).
Proof.
  apply (next_attempt_reuses_identifier locked user_env VNone picked []
           (Return (Form "enter_pin" ∅ PinSchema)) registering
           default_refused {[CONF_PIN := VInt 1234]} (VInt 1234) None
           (Return (Form "enter_pin" {["base" := "invalid_pin"]} PinSchema))
           registering (tail (turned_away_for_good (VInt 1234)))).
  - vm_compute. reflexivity.
  - reflexivity.
  - discriminate.
  - vm_compute. reflexivity.
Defined.

Lemma user_form_offers_witness :
  ∃ choices d,
    async_step_user open_bridge user_env None init []
    = (Return (Form "user" ∅ (UserSchema VNone choices)),
       {| bridge := bridge init; local_uuid := local_uuid init;
          discovered_bridges := Some d; unique_id := unique_id init |},
       [] ++ [mkEvent (Discover VNone) None]) ∧
    (∀ k b, d !! k = Some b ->
            uuid b = k ∧ b ∈ [lanc] ∧ k ∉ current_ids user_env) ∧
    (∀ b, b ∈ [lanc] -> uuid b ∉ current_ids user_env ->
          is_Some (d !! uuid b)) ∧
    choices !! COMFOCONNECT_MANUAL_BRIDGE_ID
    = Some "Manually add a ComfoConnect LAN C Bridge" ∧
    (∀ k, k ≠ COMFOCONNECT_MANUAL_BRIDGE_ID ->
          choices !! k = host <$> d !! k).
Proof.
  apply (user_form_offers open_bridge user_env init [] [lanc]).
  reflexivity.
Defined.

Lemma user_step_bad_selection_witness :
  async_step_user open_bridge user_env (Some ∅) offered []
  = (Raise (PyError "KeyError"), offered, []).
Proof.
  apply (proj1 (user_step_bad_selection open_bridge user_env ∅ offered [])).
  reflexivity.
Defined.
